(** * insidr debug server: the connection registry and broadcast engine

    A shallow embedding of [backend/debug_server.py] (class [DebugServer]):
    the three dictionaries and the subscriber set it keeps, the per-frame
    bodies of [handle_device] and [handle_subscriber], their [finally]
    blocks, and [broadcast_to_subscribers].

    Modelling conventions.
    - A websocket object is an opaque handle, a [nat].
    - [json.loads] and [json.dumps] are the library's: an inbound frame is
      given by what [json.loads] makes of it ([Garbage] when it raises
      [JSONDecodeError]), and an outbound message is recorded as the value
      handed to [json.dumps].  JSON numbers are the integers; numbers with
      a fraction or an exponent are not represented.
    - Python exceptions are an error monad over the whole server state in
      which the state written before a [raise] is kept, as in Python.
    - One frame is handled atomically: the interleavings of the event loop
      are the interleavings of whole frames of different connections.
    - [datetime.now().isoformat()] is read from the environment: each
      device frame comes with the two clock readings it may consume. *)

From stdpp Require Import base gmap sets list strings.
From Stdlib Require Import ZArith Ascii.

Local Open Scope string_scope.
Local Open Scope list_scope.
Local Open Scope nat_scope.
#[local] Set Warnings "-clear-no-such-hyp".

(** ** Python dictionaries: insertion-ordered association lists *)

Module PyDict.

(** [d.get(k)] as an option. *)
Fixpoint get {K V : Type} `{EqDecision K} (k : K) (d : list (K * V))
    : option V :=
  match d with
  | [] => None
  | (k', v) :: rest => if decide (k = k') then Some v else get k rest
  end.

(** [d[k] = v]: a present key keeps its position, a new one goes last. *)
Fixpoint set {K V : Type} `{EqDecision K} (k : K) (v : V) (d : list (K * V))
    : list (K * V) :=
  match d with
  | [] => [(k, v)]
  | (k', v') :: rest =>
      if decide (k = k') then (k', v) :: rest else (k', v') :: set k v rest
  end.

(** [list(d.values())]. *)
Definition values {K V : Type} (d : list (K * V)) : list V := d.*2.

End PyDict.

(** ** JSON values, as [json.loads] returns them *)

#[local] Set Warnings "-register-all".
Inductive json :=
| JNull
| JBool (b : bool)
| JInt (z : Z)
| JStr (s : string)
| JArr (items : list json)
| JObj (fields : list (string * json)).

#[local] Set Warnings "register-all".

Abbreviation dict := (list (string * json)).

(** Keys of the registry's dictionaries: the hashable JSON values up to
    Python's key equality ([True == 1], [False == 0]). *)
Inductive key :=
| KNone
| KInt (z : Z)
| KStr (s : string).

Global Instance key_eq_dec : EqDecision key.
Proof. solve_decision. Defined.

Global Instance key_countable : Countable key.
Proof.
  refine (inj_countable'
    (λ k, match k with
          | KNone => inl ()
          | KInt z => inr (inl z)
          | KStr s => inr (inr s)
          end)
    (λ x, match x with
          | inl () => KNone
          | inr (inl z) => KInt z
          | inr (inr s) => KStr s
          end) _).
  by intros [].
Defined.

(** [hash(v)]: lists and dicts are unhashable. *)
Definition hash_key (v : json) : option key :=
  match v with
  | JNull => Some KNone
  | JBool b => Some (KInt (if b then 1 else 0))
  | JInt z => Some (KInt z)
  | JStr s => Some (KStr s)
  | JArr _ | JObj _ => None
  end.

(** [bool(v)]. *)
Definition truthy (v : json) : bool :=
  match v with
  | JNull => false
  | JBool b => b
  | JInt z => negb (z =? 0)%Z
  | JStr s => negb (String.eqb s "")
  | JArr items => match items with [] => false | _ => true end
  | JObj fields => match fields with [] => false | _ => true end
  end.

(** [v == s] for a string literal [s]. *)
Definition is_str (s : string) (v : json) : bool :=
  match v with
  | JStr s' => String.eqb s' s
  | _ => false
  end.

(** What [json.loads(message)] makes of a frame. *)
Inductive frame :=
| Garbage
| Json (v : json).

(** ** The server object and its environment *)

Abbreviation conn := nat (only parsing).

Record world := World {
  (* self.devices *)
  devices : gmap key conn;
  (* self.device_events, a defaultdict(list) *)
  device_events : gmap key (list json);
  (* self.device_info *)
  device_info : list (key * dict);
  (* self.subscribers *)
  subscribers : gset conn;
  (* connections on which send raises ConnectionClosed *)
  closed : gset conn;
  (* every message sent so far, oldest first *)
  outbox : list (conn * json);
  (* the local device_id of each running handle_device *)
  handlers : gmap conn json
}.

Definition initial : world := World ∅ ∅ [] ∅ ∅ [] ∅.

Definition with_devices (f : gmap key conn → gmap key conn) (w : world) :=
  World (f (devices w)) (device_events w) (device_info w) (subscribers w)
        (closed w) (outbox w) (handlers w).
Definition with_device_events
    (f : gmap key (list json) → gmap key (list json)) (w : world) :=
  World (devices w) (f (device_events w)) (device_info w) (subscribers w)
        (closed w) (outbox w) (handlers w).
Definition with_device_info
    (f : list (key * dict) → list (key * dict)) (w : world) :=
  World (devices w) (device_events w) (f (device_info w)) (subscribers w)
        (closed w) (outbox w) (handlers w).
Definition with_subscribers (f : gset conn → gset conn) (w : world) :=
  World (devices w) (device_events w) (device_info w) (f (subscribers w))
        (closed w) (outbox w) (handlers w).
Definition with_closed (f : gset conn → gset conn) (w : world) :=
  World (devices w) (device_events w) (device_info w) (subscribers w)
        (f (closed w)) (outbox w) (handlers w).
Definition with_outbox
    (f : list (conn * json) → list (conn * json)) (w : world) :=
  World (devices w) (device_events w) (device_info w) (subscribers w)
        (closed w) (f (outbox w)) (handlers w).
Definition with_handlers (f : gmap conn json → gmap conn json) (w : world) :=
  World (devices w) (device_events w) (device_info w) (subscribers w)
        (closed w) (outbox w) (f (handlers w)).

(** ** Exceptions over the server state *)

Inductive exn :=
| JSONDecodeError
| KeyError
| TypeError
| AttributeError
| ConnectionClosed.

Inductive outcome (A : Type) :=
| Ret (a : A)
| Raise (e : exn).
Arguments Ret {A} a.
Arguments Raise {A} e.

Definition M (A : Type) : Type := world → outcome A * world.

Global Instance M_ret : MRet M := λ A a w, (Ret a, w).
Global Instance M_bind : MBind M := λ A B f m w,
  match m w with
  | (Ret a, w') => f a w'
  | (Raise e, w') => (Raise e, w')
  end.

Definition raise {A} (e : exn) : M A := λ w, (Raise e, w).
Definition get_world : M world := λ w, (Ret w, w).
Definition modify (f : world → world) : M unit := λ w, (Ret tt, f w).

(** [try: body / except: handler]. *)
Definition try_except {A} (body : M A) (handler : exn → M A) : M A := λ w,
  match body w with
  | (Ret a, w') => (Ret a, w')
  | (Raise e, w') => handler e w'
  end.

Definition of_option {A} (e : exn) (o : option A) : M A :=
  match o with
  | Some a => mret a
  | None => raise e
  end.

(** [json.loads(message)]. *)
Definition json_loads (message : frame) : M json :=
  match message with
  | Garbage => raise JSONDecodeError
  | Json v => mret v
  end.

(** [v.get(k, dflt)]: only dicts have [get]. *)
Definition py_get (v : json) (k : string) (dflt : json) : M json :=
  match v with
  | JObj fields => mret (default dflt (PyDict.get k fields))
  | _ => raise AttributeError
  end.

(** [v[k]] for a string [k]: [KeyError] on a dict without [k], [TypeError]
    on everything that is not a dict. *)
Definition py_getitem (v : json) (k : string) : M json :=
  match v with
  | JObj fields => of_option KeyError (PyDict.get k fields)
  | _ => raise TypeError
  end.

(** [v[k] = x] for a string [k]; the updated object is returned. *)
Definition py_setitem (v : json) (k : string) (x : json) : M json :=
  match v with
  | JObj fields => mret (JObj (PyDict.set k x fields))
  | _ => raise TypeError
  end.

(** Using [v] as a dictionary key. *)
Definition hashed (v : json) : M key := of_option TypeError (hash_key v).

(** [l[-n:]]. *)
Definition py_slice_last {A} (n : nat) (l : list A) : list A :=
  drop (length l - n) l.

(** [await websocket.send(json.dumps(msg))]. *)
Definition send (websocket : conn) (msg : json) : M unit := λ w,
  if decide (websocket ∈ closed w) then (Raise ConnectionClosed, w)
  else (Ret tt, with_outbox (λ o, o ++ [(websocket, msg)]) w).

(** ** Messages the hub sends *)

(** The DeviceInfo a handshake writes and the control event announcing it. *)
Definition new_info (d user_agent url : json) (now1 now2 : string) : dict :=
  [("deviceId", d); ("userAgent", user_agent); ("url", url);
   ("connectedAt", JStr now1); ("lastSeen", JStr now2)].

Definition connected_event (info : dict) : json :=
  JObj [("type", JStr "device.connected"); ("payload", JObj info)].

Definition disconnected_event (device_id : json) : json :=
  JObj [("type", JStr "device.disconnected");
        ("payload", JObj [("deviceId", device_id)])].

(** The reply to a replay request and the message forwarded to a device. *)
Definition events_reply (device_id : json) (events : list json) : json :=
  JObj [("type", JStr "device.events");
        ("payload", JObj [("deviceId", device_id); ("events", JArr events)])].

Definition command_message (cmd payload : json) : json :=
  JObj [("type", JStr "command"); ("command", cmd); ("payload", payload)].

(** ** [broadcast_to_subscribers] *)

(** The [for subscriber in self.subscribers] loop, threading the local set
    [disconnected]. *)
Fixpoint broadcast_loop (subs : list conn) (message : json)
    (disconnected : gset conn) : M (gset conn) :=
  match subs with
  | [] => mret disconnected
  | subscriber :: rest =>
      disconnected' ←
        try_except (send subscriber message;; mret disconnected)
          (λ e, match e with
                | ConnectionClosed => mret ({[subscriber]} ∪ disconnected)
                | _ => raise e
                end);
      broadcast_loop rest message disconnected'
  end.

Definition broadcast_to_subscribers (event : json) : M unit :=
  w ← get_world;
  if decide (subscribers w = ∅) then mret tt
  else
    disconnected ← broadcast_loop (elements (subscribers w)) event ∅;
    modify (with_subscribers (λ s, s ∖ disconnected)).

(** ** [handle_device] *)

(** The local variable [device_id] of the handler running on [websocket]. *)
Definition get_device_id (websocket : conn) : M json :=
  w ← get_world; mret (default JNull (handlers w !! websocket)).

Definition set_device_id (websocket : conn) (v : json) : M unit :=
  modify (with_handlers <[websocket := v]>).

(** [self.device_events[device_id].append(event)] followed by the trim to
    the last 1000. *)
Definition append_event (k : key) (event : json) : M unit :=
  modify (with_device_events (λ m, <[k := default [] (m !! k) ++ [event]]> m));;
  w ← get_world;
  if decide (1000 < length (default [] (device_events w !! k))) then
    modify (with_device_events
              (λ m, <[k := py_slice_last 1000 (default [] (m !! k))]> m))
  else mret tt.

(** The [_auth] branch, up to its [continue]. *)
Definition authenticate (websocket : conn) (event : json) (now1 now2 : string)
    : M unit :=
  payload ← py_getitem event "payload";
  device_id ← py_getitem payload "deviceId";
  set_device_id websocket device_id;;
  k ← hashed device_id;
  modify (with_devices <[k := websocket]>);;
  payload ← py_getitem event "payload";
  user_agent ← py_getitem payload "userAgent";
  payload ← py_getitem event "payload";
  url ← py_getitem payload "url";
  modify (with_device_info
            (PyDict.set k (new_info device_id user_agent url now1 now2)));;
  w ← get_world;
  info ← of_option KeyError (PyDict.get k (device_info w));
  broadcast_to_subscribers (connected_event info).

(** The [if device_id:] block. *)
Definition store_event (websocket : conn) (event : json) (now1 : string)
    : M unit :=
  device_id ← get_device_id websocket;
  if truthy device_id then
    event ← py_setitem event "deviceId" device_id;
    k ← hashed device_id;
    append_event k event;;
    w ← get_world;
    info ← of_option KeyError (PyDict.get k (device_info w));
    modify (with_device_info
              (PyDict.set k (PyDict.set "lastSeen" (JStr now1) info)));;
    broadcast_to_subscribers event
  else mret tt.

(** The body of the inner [try] for one message. *)
Definition device_message (websocket : conn) (message : frame)
    (now1 now2 : string) : M unit :=
  event ← json_loads message;
  type ← py_get event "type" JNull;
  if is_str "_auth" type then authenticate websocket event now1 now2
  else store_event websocket event now1.

(** One iteration of [async for message in websocket]: both [except]
    clauses log and go on. *)
Definition handle_device_message (websocket : conn) (message : frame)
    (now1 now2 : string) : M unit :=
  try_except (device_message websocket message now1 now2) (λ _, mret tt).

(** The [finally] block. *)
Definition handle_device_finally (websocket : conn) : M unit :=
  device_id ← get_device_id websocket;
  if truthy device_id then
    k ← hashed device_id;
    w ← get_world;
    if decide (k ∈ dom (devices w)) then
      modify (with_devices (delete k));;
      broadcast_to_subscribers (disconnected_event device_id)
    else mret tt
  else mret tt.

(** ** [handle_subscriber] *)

(** The [finally] block: [self.subscribers.discard(websocket)]. *)
Definition handle_subscriber_finally (websocket : conn) : M unit :=
  modify (with_subscribers (λ s, s ∖ {[websocket]})).

(** From the start of the handler to the first [async for]: a
    [ConnectionClosed] of the greeting is logged and ends the handler,
    anything else leaves it through [finally]. *)
Definition handle_subscriber_open (websocket : conn) : M unit :=
  modify (with_subscribers (λ s, {[websocket]} ∪ s));;
  w ← get_world;
  try_except
    (send websocket
       (JObj [("type", JStr "devices.list");
              ("payload", JArr (JObj <$> PyDict.values (device_info w)))]))
    (λ e, handle_subscriber_finally websocket;;
          match e with
          | ConnectionClosed => mret tt
          | _ => raise e
          end).

(** The body of the inner [try] for one message. *)
Definition subscriber_message (websocket : conn) (message : frame) : M unit :=
  command ← json_loads message;
  type ← py_getitem command "type";
  if is_str "device.request_events" type then
    device_id ← py_getitem command "deviceId";
    k ← hashed device_id;
    w ← get_world;
    let events := default [] (device_events w !! k) in
    send websocket (events_reply device_id events)
  else
    type ← py_getitem command "type";
    if is_str "device.send_command" type then
      device_id ← py_getitem command "deviceId";
      k ← hashed device_id;
      w ← get_world;
      match devices w !! k with
      | Some device =>
          cmd ← py_getitem command "command";
          payload ← py_get command "payload" (JObj []);
          send device (command_message cmd payload)
      | None => mret tt
      end
    else mret tt.

(** One iteration of the subscriber's [async for]. *)
Definition handle_subscriber_message (websocket : conn) (message : frame)
    : M unit :=
  try_except (subscriber_message websocket message) (λ _, mret tt).

(** ** The hub as a transition system *)

(** What the transport makes happen.  A handle names one connection and the
    transport starts one handler on it; the loop of a handler ends when its
    connection is closed. *)
Inductive action :=
| DeviceConnect (c : conn)
| DeviceMessage (c : conn) (message : frame) (now1 now2 : string)
| DeviceDisconnect (c : conn)
| SubscriberConnect (c : conn)
| SubscriberMessage (c : conn) (message : frame)
| SubscriberDisconnect (c : conn)
| TransportClosed (c : conn).

(** The state a computation leaves, whether it returns or raises. *)
Definition exec {A} (m : M A) (w : world) : world := (m w).2.

Definition mark_closed (c : conn) : world → world :=
  with_closed (λ s, {[c]} ∪ s).

Definition step (a : action) (w : world) : world :=
  match a with
  | DeviceConnect c =>
      (* device_id = None *)
      if decide (c ∈ dom (handlers w)) then w
      else with_handlers <[c := JNull]> w
  | DeviceMessage c message now1 now2 =>
      if decide (c ∈ dom (handlers w))
      then exec (handle_device_message c message now1 now2) w
      else w
  | DeviceDisconnect c =>
      if decide (c ∈ dom (handlers w))
      then with_handlers (delete c)
             (exec (handle_device_finally c) (mark_closed c w))
      else w
  | SubscriberConnect c => exec (handle_subscriber_open c) w
  | SubscriberMessage c message => exec (handle_subscriber_message c message) w
  | SubscriberDisconnect c =>
      exec (handle_subscriber_finally c) (mark_closed c w)
  | TransportClosed c => mark_closed c w
  end.

Definition run (trace : list action) (w : world) : world :=
  foldl (λ w a, step a w) w trace.

(** [GetEvents(id)]: [self.device_events.get(device_id, [])]. *)
Definition get_events (w : world) (k : key) : list json :=
  default [] (device_events w !! k).

(** ** Frames of the wire protocol *)

Definition auth_frame (device_id user_agent url : json) : json :=
  JObj [("type", JStr "_auth");
        ("payload", JObj [("deviceId", device_id);
                          ("userAgent", user_agent); ("url", url)])].

(** ** Vocabulary of the statements *)

(** What one pass over the subscribers leaves: the message queued once for
    every subscriber that is not closed, the closed ones dropped. *)
Definition deliveries (message : json) (w : world) : list (conn * json) :=
  (λ s, (s, message)) <$> filter (λ s, s ∉ closed w) (elements (subscribers w)).

Definition broadcast_result (message : json) (w : world) : world :=
  with_subscribers (λ s, s ∖ closed w)
    (with_outbox (λ o, o ++ deliveries message w) w).

(** One append to a buffer holding [history]. *)
Definition ring_push (history : list json) (event : json) : list json :=
  let l := history ++ [event] in
  if decide (1000 < length l) then py_slice_last 1000 l else l.

(** [event.get('type') == '_auth'] on a parsed object. *)
Definition is_auth (event : json) : bool :=
  match event with
  | JObj fields => is_str "_auth" (default JNull (PyDict.get "type" fields))
  | _ => false
  end.

(** [event['payload']['deviceId']] where it evaluates. *)
Definition payload_device_id (fields : dict) : option json :=
  match PyDict.get "payload" fields with
  | Some (JObj payload) => PyDict.get "deviceId" payload
  | _ => None
  end.

(** The [deviceId] a handshake frame carries, if the frame is one. *)
Definition claimed_id (message : frame) : option json :=
  match message with
  | Json (JObj fields) =>
      if is_auth (JObj fields) then payload_device_id fields else None
  | _ => None
  end.

(** The envelope as stored: [event['deviceId'] = device_id]. *)
Definition stamp (device_id : json) (fields : dict) : json :=
  JObj (PyDict.set "deviceId" device_id fields).

(** Two states that differ at most in the messages queued. *)
Definition same_registry (w w' : world) : Prop :=
  devices w' = devices w ∧ device_events w' = device_events w ∧
  device_info w' = device_info w ∧ subscribers w' = subscribers w ∧
  closed w' = closed w ∧ handlers w' = handlers w.

(** The regular events connection [c] sends in a trace, oldest first: the
    frames that parse to an object whose type is not [_auth]. *)
Definition events_of (c : conn) (trace : list action) : list dict :=
  omap (λ a, match a with
             | DeviceMessage c' (Json (JObj fields)) _ _ =>
                 if decide (c' = c) then
                   if is_auth (JObj fields) then None else Some fields
                 else None
             | _ => None
             end) trace.

(** An action that leaves the binding of [c] to [id] alone: [c] does not
    terminate and does not shake hands again, and no other connection
    shakes hands as [id]. *)
Definition undisturbed (c : conn) (id : string) (a : action) : bool :=
  match a with
  | DeviceMessage c' message _ _ =>
      match claimed_id message with
      | Some d => bool_decide (c' ≠ c) && negb (is_str id d)
      | None => true
      end
  | DeviceDisconnect c' => bool_decide (c' ≠ c)
  | _ => true
  end.

(** [c] is the one running handler bound to [id]. *)
Definition sole_owner (c : conn) (id : string) (w : world) : Prop :=
  handlers w !! c = Some (JStr id) ∧
  ∀ c', c' ≠ c → handlers w !! c' ≠ Some (JStr id).

(** No buffer holds a handshake frame. *)
Definition no_auth_stored (w : world) : Prop :=
  ∀ k, Forall (λ e, is_auth e = false) (get_events w k).

(** ** Sample traffic *)

Definition log_event (n : Z) : dict :=
  [("type", JStr "console.log"); ("payload", JInt n)].

Definition dev1_auth : frame :=
  Json (auth_frame (JStr "dev1") (JStr "Mozilla/5.0") (JStr "http://app/")).

Definition three_events : list action :=
  [DeviceMessage 1 (Json (JObj (log_event 1))) "t2" "t2";
   SubscriberConnect 7;
   DeviceMessage 1 (Json (JObj (log_event 2))) "t3" "t3";
   SubscriberMessage 7
     (Json (JObj [("type", JStr "device.request_events");
                  ("deviceId", JStr "dev1")]));
   DeviceMessage 1 (Json (JObj (log_event 3))) "t4" "t4"].

Definition many_events (n : nat) : list action :=
  (λ i, DeviceMessage 1 (Json (JObj (log_event (Z.of_nat i)))) "t2" "t2")
    <$> seq 0 n.

Definition anonymous_auth : frame :=
  Json (auth_frame (JStr "") (JStr "Mozilla/5.0") (JStr "http://app/")).

(** ** [http_handler] *)

(** What [web.json_response(data, status=...)] carries. *)
Record response := Response {
  status : nat;
  body : json
}.

(** [s.split(sep)] for a one-character separator. *)
Fixpoint py_split (sep : Ascii.ascii) (s : string) : list string :=
  match s with
  | EmptyString => [EmptyString]
  | String ch rest =>
      if Ascii.eqb ch sep then EmptyString :: py_split sep rest
      else match py_split sep rest with
           | segment :: segments => String ch segment :: segments
           | [] => [String ch EmptyString]
           end
  end.

(** [s.startswith(prefix)]. *)
Fixpoint py_startswith (prefix s : string) : bool :=
  match prefix with
  | EmptyString => true
  | String a prefix' =>
      match s with
      | EmptyString => false
      | String b s' => Ascii.eqb a b && py_startswith prefix' s'
      end
  end.

(** The handler as a function of [request.path] and the server state. *)
Definition http_handler (path : string) (w : world) : response :=
  if String.eqb path "/api/devices" then
    Response 200 (JArr (JObj <$> PyDict.values (device_info w)))
  else if py_startswith "/api/device/" path then
    let device_id := default EmptyString (last (py_split "/"%char path)) in
    match PyDict.get (KStr device_id) (device_info w) with
    | Some info =>
        Response 200
          (JObj [("info", JObj info);
                 ("events", JArr (get_events w (KStr device_id)))])
    | None => Response 404 (JObj [("error", JStr "Device not found")])
    end
  else Response 404 (JObj [("error", JStr "Not found")]).

(** ** More vocabulary *)

(** The string has no [/] in it. *)
Definition no_slash (s : string) : bool :=
  forallb (λ ch, negb (Ascii.eqb ch "/"%char)) (String.list_ascii_of_string s).

(** The greeting of a new subscriber. *)
Definition devices_list (w : world) : json :=
  JObj [("type", JStr "devices.list");
        ("payload", JArr (JObj <$> PyDict.values (device_info w)))].

(** The fields of a DeviceInfo, in the order the handshake writes them. *)
Definition info_keys : list string :=
  ["deviceId"; "userAgent"; "url"; "connectedAt"; "lastSeen"].

(** A DeviceInfo filed under [k]: the five fields, and a [deviceId] that
    is the key it is filed under. *)
Definition info_of (k : key) (info : dict) : Prop :=
  info.*1 = info_keys ∧
  ∃ d, PyDict.get "deviceId" info = Some d ∧ hash_key d = Some k.

Definition infos_well_formed (w : world) : Prop :=
  NoDup (device_info w).*1 ∧
  Forall (λ entry, info_of entry.1 entry.2) (device_info w).

(** An envelope as the buffer of [k] holds it: an object stamped with a
    truthy [deviceId] whose key is [k]. *)
Definition envelope_of (k : key) (e : json) : Prop :=
  ∃ fields d, e = JObj fields ∧ PyDict.get "deviceId" fields = Some d ∧
              truthy d = true ∧ hash_key d = Some k.

(** * Dictionaries *)

Lemma pydict_get_set_eq {K V : Type} `{EqDecision K} (k : K) (v : V) d :
  PyDict.get k (PyDict.set k v d) = Some v.
Proof.
  induction d as [|[k' v'] rest IH]; simpl.
  - by rewrite decide_True.
  - destruct (decide (k = k')) as [->|Hne]; simpl.
    + by rewrite decide_True.
    + by rewrite decide_False.
Qed.

Lemma pydict_get_set_ne {K V : Type} `{EqDecision K} (k k' : K) (v : V) d :
  k ≠ k' → PyDict.get k' (PyDict.set k v d) = PyDict.get k' d.
Proof.
  intros Hne. induction d as [|[k0 v0] rest IH]; simpl.
  - by rewrite decide_False.
  - destruct (decide (k = k0)) as [->|Hk]; simpl.
    + by rewrite !decide_False.
    + destruct (decide (k' = k0)); [done | apply IH].
Qed.

(** * Broadcast *)

Lemma send_open c msg w :
  c ∉ closed w → send c msg w = (Ret tt, with_outbox (λ o, o ++ [(c, msg)]) w).
Proof. intros Hc. unfold send. by rewrite decide_False. Qed.

Lemma send_closed c msg w :
  c ∈ closed w → send c msg w = (Raise ConnectionClosed, w).
Proof. intros Hc. unfold send. by rewrite decide_True. Qed.

Lemma broadcast_loop_spec subs message disconnected w :
  broadcast_loop subs message disconnected w =
  (Ret (list_to_set (filter (λ s, s ∈ closed w) subs) ∪ disconnected),
   with_outbox
     (λ o, o ++ ((λ s, (s, message)) <$> filter (λ s, s ∉ closed w) subs)) w).
Proof.
  revert disconnected w. induction subs as [|s rest IH]; intros disconnected w.
  - destruct w. simpl. unfold mret, M_ret, with_outbox. simpl.
    rewrite app_nil_r. f_equal. f_equal. set_solver.
  - simpl. unfold mbind, M_bind, try_except.
    destruct (decide (s ∈ closed w)) as [Hs|Hs].
    + rewrite send_closed by done. unfold mret at 1, M_ret. rewrite IH.
      rewrite filter_cons_True by done.
      rewrite filter_cons_False by (intros ?; done).
      f_equal. f_equal. set_solver.
    + rewrite send_open by done. unfold mret at 1, M_ret. rewrite IH.
      destruct w. unfold with_outbox. simpl in *.
      rewrite filter_cons_False by done.
      rewrite filter_cons_True by done.
      rewrite fmap_cons, <- app_assoc. simpl.
      f_equal. 
Qed.

Lemma broadcast_spec message w :
  broadcast_to_subscribers message w = (Ret tt, broadcast_result message w).
Proof.
  unfold broadcast_to_subscribers, broadcast_result, deliveries.
  unfold mbind, M_bind, get_world.
  destruct (decide (subscribers w = ∅)) as [He|He].
  - unfold mret, M_ret. f_equal. destruct w. unfold with_subscribers, with_outbox.
    simpl in *. subst. rewrite elements_empty. simpl. rewrite app_nil_r.
    f_equal. set_solver.
  - rewrite broadcast_loop_spec. unfold modify. f_equal.
    destruct w. unfold with_subscribers, with_outbox. simpl in *.
    f_equal. apply set_eq. intros x.
    rewrite !elem_of_difference, elem_of_union, elem_of_list_to_set.
    rewrite list_elem_of_filter, elem_of_elements. set_solver.
Qed.

(** * The ring buffer *)

Lemma append_event_spec k event w :
  append_event k event w =
  (Ret tt, with_device_events <[k := ring_push (get_events w k) event]> w).
Proof.
  unfold append_event, ring_push, get_events.
  unfold mbind, M_bind, modify, get_world, mret, M_ret. simpl.
  rewrite lookup_insert_eq. simpl.
  destruct (decide (1000 < length (default [] (device_events w !! k) ++ [event]))).
  - unfold with_device_events. simpl. rewrite lookup_insert_eq. simpl.
    by rewrite insert_insert_eq.
  - done.
Qed.

Arguments broadcast_to_subscribers : simpl never.
Arguments append_event : simpl never.

Lemma store_event_spec c fields now d k w :
  handlers w !! c = Some d → truthy d = true → hash_key d = Some k →
  store_event c (JObj fields) now w =
    let ev := JObj (PyDict.set "deviceId" d fields) in
    let w1 := with_device_events <[k := ring_push (get_events w k) ev]> w in
    match PyDict.get k (device_info w) with
    | None => (Raise KeyError, w1)
    | Some info =>
        (Ret tt,
         broadcast_result ev
           (with_device_info
              (PyDict.set k (PyDict.set "lastSeen" (JStr now) info)) w1))
    end.
Proof.
  intros Hd Ht Hk. unfold store_event, get_device_id.
  unfold mbind, M_bind, get_world, mret, M_ret. simpl.
  rewrite Hd. simpl. rewrite Ht. unfold hashed. rewrite Hk. simpl.
  rewrite append_event_spec. simpl.
  destruct (PyDict.get k (device_info w)) as [info|]; simpl; [|done].
  by rewrite broadcast_spec.
Qed.

(** * What one device frame does to the buffers and to the local identity *)

(** The handshake branch, case by case: where it stops and what it has
    written by then. *)
Lemma authenticate_spec c fields now1 now2 w :
  authenticate c (JObj fields) now1 now2 w =
  match PyDict.get "payload" fields with
  | Some (JObj payload) =>
      match PyDict.get "deviceId" payload with
      | Some d =>
          let w1 := with_handlers <[c := d]> w in
          match hash_key d with
          | Some k =>
              let w2 := with_devices <[k := c]> w1 in
              match PyDict.get "userAgent" payload with
              | Some user_agent =>
                  match PyDict.get "url" payload with
                  | Some url =>
                      let info := new_info d user_agent url now1 now2 in
                      (Ret tt,
                       broadcast_result (connected_event info)
                         (with_device_info (PyDict.set k info) w2))
                  | None => (Raise KeyError, w2)
                  end
              | None => (Raise KeyError, w2)
              end
          | None => (Raise TypeError, w1)
          end
      | None => (Raise KeyError, w)
      end
  | Some _ => (Raise TypeError, w)
  | None => (Raise KeyError, w)
  end.
Proof.
  unfold authenticate.
  unfold mbind, M_bind, mret, M_ret, raise, modify, get_world, of_option,
    hashed, set_device_id, py_getitem. simpl.
  destruct (PyDict.get "payload" fields) as [[| | | | |payload]|];
    simpl; try done.
  destruct (PyDict.get "deviceId" payload) as [d|]; simpl; [|done].
  destruct (hash_key d) as [k|]; simpl; [|done].
  destruct (PyDict.get "userAgent" payload) as [ua|]; simpl; [|done].
  destruct (PyDict.get "url" payload) as [url|]; simpl; [|done].
  rewrite pydict_get_set_eq. simpl. by rewrite broadcast_spec.
Qed.

Lemma authenticate_effect c fields now1 now2 w :
  let w' := (authenticate c (JObj fields) now1 now2 w).2 in
  device_events w' = device_events w ∧
  (handlers w' = handlers w ∨
   ∃ d, payload_device_id fields = Some d ∧
        handlers w' = <[c := d]> (handlers w)).
Proof.
  rewrite authenticate_spec. unfold payload_device_id. simpl.
  destruct (PyDict.get "payload" fields) as [[| | | | |payload]|];
    simpl; auto.
  destruct (PyDict.get "deviceId" payload) as [d|]; simpl; auto.
  destruct (hash_key d) as [k|]; simpl; [|by eauto].
  destruct (PyDict.get "userAgent" payload) as [ua|]; simpl; [|by eauto].
  destruct (PyDict.get "url" payload) as [url|]; simpl; by eauto.
Qed.

Lemma device_message_dict c fields now1 now2 w :
  device_message c (Json (JObj fields)) now1 now2 w =
  if is_auth (JObj fields) then authenticate c (JObj fields) now1 now2 w
  else store_event c (JObj fields) now1 w.
Proof.
  unfold device_message, is_auth. simpl.
  unfold mbind at 1 2, M_bind, mret, M_ret. simpl.
  by destruct (is_str _ _).
Qed.

Lemma device_message_not_dict c v now1 now2 w :
  (∀ fields, v ≠ JObj fields) →
  device_message c (Json v) now1 now2 w = (Raise AttributeError, w).
Proof. intros Hv. destruct v; try done. by destruct (Hv fields). Qed.

Lemma exec_handle_device_message c message now1 now2 w :
  exec (handle_device_message c message now1 now2) w =
  (device_message c message now1 now2 w).2.
Proof.
  unfold exec, handle_device_message, try_except.
  by destruct (device_message _ _ _ _ _) as [[|] ?].
Qed.

Lemma store_event_falsy c event now d w :
  default JNull (handlers w !! c) = d → truthy d = false →
  store_event c event now w = (Ret tt, w).
Proof.
  intros Hd Ht. unfold store_event, get_device_id.
  unfold mbind, M_bind, mret, M_ret, get_world. simpl.
  by rewrite Hd, Ht.
Qed.

Lemma store_event_unhashable c fields now d w :
  default JNull (handlers w !! c) = d → truthy d = true → hash_key d = None →
  store_event c (JObj fields) now w = (Raise TypeError, w).
Proof.
  intros Hd Ht Hk. unfold store_event, get_device_id, hashed.
  unfold mbind, M_bind, mret, M_ret, get_world. simpl.
  by rewrite Hd, Ht, Hk.
Qed.

(** A frame either leaves every buffer alone (and at most rebinds the
    local identity to the one a handshake frame carries), or it is a regular
    event of a connection bound to a truthy identity and is pushed, stamped,
    on that identity's buffer. *)
Lemma device_message_effect c message now1 now2 w :
  let w' := exec (handle_device_message c message now1 now2) w in
  (device_events w' = device_events w ∧
   (handlers w' = handlers w ∨
    ∃ d, claimed_id message = Some d ∧ handlers w' = <[c := d]> (handlers w)) ∧
   (∀ fields d, message = Json (JObj fields) → handlers w !! c = Some d →
      is_auth (JObj fields) = true ∨ truthy d = false ∨ hash_key d = None))
  ∨
  (∃ fields d k,
     message = Json (JObj fields) ∧ is_auth (JObj fields) = false ∧
     handlers w !! c = Some d ∧ truthy d = true ∧ hash_key d = Some k ∧
     handlers w' = handlers w ∧
     device_events w' =
       <[k := ring_push (get_events w k) (stamp d fields)]> (device_events w)).
Proof.
  simpl. rewrite exec_handle_device_message.
  destruct message as [|v]; [by left; split_and!; auto|].
  assert ((∃ fields, v = JObj fields) ∨ ∀ fields, v ≠ JObj fields)
    as [[fields ->]|Hv] by (destruct v; eauto).
  2:{ rewrite device_message_not_dict by done. left. simpl.
      split_and!; auto. intros fields d [= ->]. by destruct (Hv fields). }
  rewrite device_message_dict. unfold claimed_id.
  destruct (is_auth (JObj fields)) eqn:Ha.
  - left. destruct (authenticate_effect c fields now1 now2 w) as [He Hh].
    split_and!; auto. intros ? ? [= <-] _. auto.
  - destruct (truthy (default JNull (handlers w !! c))) eqn:Ht.
    2:{ erewrite store_event_falsy by done. left. simpl. split_and!; auto.
        intros ? d _ Hd. rewrite Hd in Ht. auto. }
    destruct (handlers w !! c) as [d|] eqn:Hd; [simpl in Ht|done].
    destruct (hash_key d) as [k|] eqn:Hk.
    + right. exists fields, d, k.
      rewrite (store_event_spec c fields now1 d k w) by done. simpl.
      destruct (PyDict.get k (device_info w)); simpl; auto 10.
    + erewrite store_event_unhashable; [|by rewrite Hd|done..].
      left. simpl. split_and!; auto. intros ? ? _ [= <-]. auto.
Qed.

(** * The other handlers, case by case *)

Lemma handle_device_finally_spec c w :
  handle_device_finally c w =
  let d := default JNull (handlers w !! c) in
  if truthy d then
    match hash_key d with
    | Some k =>
        if decide (k ∈ dom (devices w))
        then (Ret tt,
              broadcast_result (disconnected_event d)
                (with_devices (delete k) w))
        else (Ret tt, w)
    | None => (Raise TypeError, w)
    end
  else (Ret tt, w).
Proof.
  unfold handle_device_finally, get_device_id, hashed.
  unfold mbind, M_bind, mret, M_ret, get_world, of_option, modify. simpl.
  destruct (truthy _); [|done].
  destruct (hash_key _) as [k|]; simpl; [|done].
  destruct (decide (k ∈ dom (devices w))); [|done].
  by rewrite broadcast_spec.
Qed.

Lemma same_registry_refl w : same_registry w w.
Proof. by repeat split. Qed.

Lemma send_same_registry c msg w : same_registry w (send c msg w).2.
Proof. unfold send. destruct (decide _); by repeat split. Qed.

Lemma subscriber_message_spec c fields w :
  subscriber_message c (Json (JObj fields)) w =
  match PyDict.get "type" fields with
  | Some type =>
      if is_str "device.request_events" type then
        match PyDict.get "deviceId" fields with
        | Some d =>
            match hash_key d with
            | Some k => send c (events_reply d (get_events w k)) w
            | None => (Raise TypeError, w)
            end
        | None => (Raise KeyError, w)
        end
      else if is_str "device.send_command" type then
        match PyDict.get "deviceId" fields with
        | Some d =>
            match hash_key d with
            | Some k =>
                match devices w !! k with
                | Some device =>
                    match PyDict.get "command" fields with
                    | Some cmd =>
                        send device
                          (command_message cmd
                             (default (JObj []) (PyDict.get "payload" fields)))
                          w
                    | None => (Raise KeyError, w)
                    end
                | None => (Ret tt, w)
                end
            | None => (Raise TypeError, w)
            end
        | None => (Raise KeyError, w)
        end
      else (Ret tt, w)
  | None => (Raise KeyError, w)
  end.
Proof.
  cbv beta iota delta [subscriber_message mbind M_bind mret M_ret get_world
    raise hashed of_option py_getitem py_get json_loads].
  destruct (PyDict.get "type" fields) as [type|]; simpl; [|done].
  destruct (is_str "device.request_events" type).
  - destruct (PyDict.get "deviceId" fields) as [d|]; simpl; [|done].
    by destruct (hash_key d).
  - destruct (is_str "device.send_command" type); [|done].
    destruct (PyDict.get "deviceId" fields) as [d|]; simpl; [|done].
    destruct (hash_key d) as [k|]; simpl; [|done].
    destruct (devices w !! k); [|done].
    by destruct (PyDict.get "command" fields).
Qed.

Lemma subscriber_message_not_dict c v w :
  (∀ fields, v ≠ JObj fields) →
  subscriber_message c (Json v) w = (Raise TypeError, w).
Proof. intros Hv. destruct v; try reflexivity. by destruct (Hv fields). Qed.

Lemma exec_handle_subscriber_message c message w :
  exec (handle_subscriber_message c message) w =
  (subscriber_message c message w).2.
Proof.
  unfold exec, handle_subscriber_message, try_except.
  by destruct (subscriber_message _ _ _) as [[|] ?].
Qed.

Lemma subscriber_message_same_registry c message w :
  same_registry w (exec (handle_subscriber_message c message) w).
Proof.
  rewrite exec_handle_subscriber_message.
  pose proof send_same_registry as Hs. pose proof same_registry_refl as Hr.
  destruct message as [|v]; [done|].
  assert ((∃ fields, v = JObj fields) ∨ ∀ fields, v ≠ JObj fields)
    as [[fields ->]|Hv] by (destruct v; eauto);
    [|by rewrite subscriber_message_not_dict].
  rewrite subscriber_message_spec.
  repeat (case_match; try done).
Qed.

Lemma subscriber_open_effect c w :
  let w' := exec (handle_subscriber_open c) w in
  devices w' = devices w ∧ device_events w' = device_events w ∧
  device_info w' = device_info w ∧ handlers w' = handlers w ∧
  closed w' = closed w.
Proof.
  unfold exec, handle_subscriber_open, handle_subscriber_finally, try_except.
  unfold mbind, M_bind, mret, M_ret, get_world, modify, send. simpl.
  by destruct (decide _).
Qed.

(** * The ring buffer over many appends *)

Lemma py_slice_last_short {A} n (l : list A) :
  length l ≤ n → py_slice_last n l = l.
Proof.
  intros Hl. unfold py_slice_last.
  by replace (length l - n) with 0 by lia.
Qed.

Lemma py_slice_last_length {A} n (l : list A) :
  length (py_slice_last n l) = length l `min` n.
Proof. unfold py_slice_last. rewrite length_drop. lia. Qed.

Lemma ring_push_slice history event :
  ring_push history event = py_slice_last 1000 (history ++ [event]).
Proof.
  unfold ring_push. destruct (decide _) as [Hl|Hl]; [done|].
  rewrite py_slice_last_short; [done|lia].
Qed.

Lemma py_slice_last_snoc {A} n (l : list A) x :
  0 < n → py_slice_last n (py_slice_last n l ++ [x]) = py_slice_last n (l ++ [x]).
Proof.
  intros Hn. destruct (decide (length l ≤ n)) as [Hl|Hl].
  - by rewrite (py_slice_last_short n l).
  - unfold py_slice_last at 1 3.
    rewrite !length_app, py_slice_last_length. simpl.
    replace (length l `min` n + 1 - n) with 1 by lia.
    unfold py_slice_last.
    rewrite (drop_app_le l [x]) by lia.
    rewrite (drop_app_le (drop _ l) [x]) by (rewrite length_drop; lia).
    rewrite drop_drop. do 2 f_equal. lia.
Qed.

Lemma ring_push_fold history events :
  events ≠ [] →
  foldl ring_push history events = py_slice_last 1000 (history ++ events).
Proof.
  revert history. induction events as [|e events IH] using rev_ind; [done|].
  intros history _. rewrite foldl_app. simpl.
  destruct events as [|e' events'].
  - simpl. apply ring_push_slice.
  - rewrite IH by done. rewrite ring_push_slice.
    rewrite py_slice_last_snoc by lia. by rewrite app_assoc.
Qed.

(** Up to the capacity nothing is dropped. *)
Lemma ring_push_fold_short history events :
  length history + length events ≤ 1000 →
  foldl ring_push history events = history ++ events.
Proof.
  intros Hl. destruct events as [|e events']; [by rewrite app_nil_r|].
  rewrite ring_push_fold by done.
  apply py_slice_last_short. rewrite length_app. lia.
Qed.

(** Past the capacity exactly the last 1000 appended are left, whatever
    was there before. *)
Lemma ring_push_fold_long history events :
  1000 < length events →
  foldl ring_push history events = drop (length events - 1000) events.
Proof.
  intros Hl. rewrite ring_push_fold by (intros ->; simpl in Hl; lia).
  unfold py_slice_last. rewrite length_app.
  rewrite drop_app_ge by lia. f_equal. lia.
Qed.

(** * One device's stream among the others *)

Arguments is_auth : simpl never.

Lemma finally_effect c w :
  let w' := exec (handle_device_finally c) w in
  device_events w' = device_events w ∧ device_info w' = device_info w ∧
  handlers w' = handlers w.
Proof.
  unfold exec. rewrite handle_device_finally_spec. simpl.
  repeat case_match; done.
Qed.

Lemma hash_key_str d id : hash_key d = Some (KStr id) → d = JStr id.
Proof. destruct d as [|[]| | | |]; simpl; congruence. Qed.

Lemma is_str_false id d : is_str id d = false → d ≠ JStr id.
Proof.
  intros Hs ->. simpl in Hs. by rewrite String.eqb_refl in Hs.
Qed.

Lemma truthy_str id : id ≠ "" → truthy (JStr id) = true.
Proof.
  intros Hid. simpl. destruct (String.eqb_spec id ""); done.
Qed.

#[local] Opaque ring_push.

Lemma step_stream c id a w :
  id ≠ "" → sole_owner c id w → undisturbed c id a = true →
  sole_owner c id (step a w) ∧
  get_events (step a w) (KStr id) =
    foldl ring_push (get_events w (KStr id))
          (stamp (JStr id) <$> events_of c [a]).
Proof.
  intros Hid [Hc Hother] Hq.
  assert (c ∈ dom (handlers w)) as Hrun by (apply elem_of_dom; eauto).
  destruct a as [c'|c' message now1 now2|c'|c'|c' message|c'|c'];
    simpl in Hq; cbn [step].
  - destruct (decide (c' ∈ dom (handlers w))); [done|].
    assert (c' ≠ c) by congruence. split; [|done]. split; simpl.
    + by rewrite lookup_insert_ne.
    + intros c'' Hc''. destruct (decide (c'' = c')) as [->|].
      * by rewrite lookup_insert_eq.
      * rewrite lookup_insert_ne by done. auto.
  - destruct (decide (c' ∈ dom (handlers w))) as [Hrun'|Hrun'].
    2:{ split; [done|]. assert (c' ≠ c) by congruence.
        unfold events_of. simpl. destruct message as [|[]]; try done.
        by rewrite decide_False. }
    destruct (device_message_effect c' message now1 now2 w)
      as [(He & Hh & Hns)|(fields & d & k & -> & Ha & Hd & Ht & Hk & Hh & He)].
    + assert (events_of c [DeviceMessage c' message now1 now2] = []) as ->.
      { unfold events_of. simpl. destruct message as [|[]]; try done.
        destruct (decide (c' = c)) as [->|]; [|done].
        destruct (Hns _ _ eq_refl Hc) as [Ha|[Ht|Hk]].
        - by rewrite Ha.
        - by rewrite truthy_str in Ht.
        - done. }
      simpl. unfold get_events, sole_owner. rewrite He. split; [|done].
      destruct Hh as [Hh|(d & Hcl & Hh)]; rewrite Hh; [done|].
      rewrite Hcl in Hq. apply andb_true_iff in Hq as [Hne Hs].
      apply bool_decide_eq_true in Hne. apply negb_true_iff in Hs.
      split.
      * by rewrite lookup_insert_ne.
      * intros c'' Hc''. destruct (decide (c'' = c')) as [->|].
        -- rewrite lookup_insert_eq. intros [= ->].
           by apply is_str_false in Hs.
        -- rewrite lookup_insert_ne by done. auto.
    + split; [by unfold sole_owner; rewrite Hh|].
      unfold get_events at 1. rewrite He. unfold events_of. simpl.
      rewrite Ha. destruct (decide (c' = c)) as [->|Hne].
      * assert (d = JStr id) as -> by congruence. simpl in Hk.
        injection Hk as <-. by rewrite lookup_insert_eq.
      * rewrite lookup_insert_ne; [done|].
        intros ->. apply hash_key_str in Hk as ->. by apply (Hother c').
  - apply bool_decide_eq_true in Hq.
    destruct (decide (c' ∈ dom (handlers w))); [|done].
    destruct (finally_effect c' (mark_closed c' w)) as (He & _ & Hh).
    unfold get_events, sole_owner. simpl. rewrite He, Hh. simpl.
    split; [|done]. split.
    + by rewrite lookup_delete_ne.
    + intros c'' Hc''. destruct (decide (c'' = c')) as [->|].
      * by rewrite lookup_delete_eq.
      * rewrite lookup_delete_ne by done. auto.
  - destruct (subscriber_open_effect c' w) as (_ & He & _ & Hh & _).
    unfold get_events, sole_owner. by rewrite He, Hh.
  - destruct (subscriber_message_same_registry c' message w)
      as (_ & He & _ & _ & _ & Hh).
    unfold get_events, sole_owner. by rewrite He, Hh.
  - done.
  - done.
Qed.

#[local] Transparent ring_push.

Lemma events_of_cons c a trace :
  events_of c (a :: trace) = events_of c [a] ++ events_of c trace.
Proof. apply (omap_app _ [a] trace). Qed.

Lemma run_stream c id trace w :
  id ≠ "" → sole_owner c id w → forallb (undisturbed c id) trace = true →
  sole_owner c id (run trace w) ∧
  get_events (run trace w) (KStr id) =
    foldl ring_push (get_events w (KStr id))
          (stamp (JStr id) <$> events_of c trace).
Proof.
  intros Hid. revert w. induction trace as [|a trace IH]; intros w Hown Hq.
  - done.
  - simpl in Hq. apply andb_true_iff in Hq as [Ha Hq].
    destruct (step_stream c id a w Hid Hown Ha) as [Hown' Hev].
    destruct (IH (step a w) Hown' Hq) as [Hown'' Hev'].
    split; [done|]. change (run (a :: trace) w) with (run trace (step a w)).
    rewrite Hev', Hev.
    by rewrite (events_of_cons c a trace), fmap_app, foldl_app.
Qed.

(** A complete handshake binds the connection and touches no buffer. *)
Lemma handshake_effect c d user_agent url now1 now2 w k :
  c ∈ dom (handlers w) → hash_key d = Some k →
  step (DeviceMessage c (Json (auth_frame d user_agent url)) now1 now2) w =
  broadcast_result (connected_event (new_info d user_agent url now1 now2))
    (with_device_info (PyDict.set k (new_info d user_agent url now1 now2))
       (with_devices <[k := c]> (with_handlers <[c := d]> w))).
Proof.
  intros Hrun Hk. cbn [step]. rewrite decide_True by done.
  rewrite exec_handle_device_message. unfold auth_frame.
  rewrite device_message_dict.
  change (is_auth _) with true. cbv iota.
  rewrite authenticate_spec. simpl. by rewrite Hk.
Qed.

Lemma handshake_owner c id user_agent url now1 now2 w :
  (∀ c', c' ≠ c → handlers w !! c' ≠ Some (JStr id)) →
  let w' := run [DeviceConnect c;
                 DeviceMessage c (Json (auth_frame (JStr id) user_agent url))
                   now1 now2] w in
  sole_owner c id w' ∧ device_events w' = device_events w.
Proof.
  intros Hother. unfold run. cbn [foldl].
  set (w1 := step (DeviceConnect c) w).
  assert (c ∈ dom (handlers w1)) as Hrun.
  { unfold w1. cbn [step]. destruct (decide _); [done|]. simpl. set_solver. }
  assert (device_events w1 = device_events w) as He
    by (unfold w1; cbn [step]; by destruct (decide _)).
  assert (∀ c', c' ≠ c → handlers w1 !! c' = handlers w !! c') as Hh.
  { intros c' Hc'. unfold w1. cbn [step]. destruct (decide _); [done|]. simpl.
    by rewrite lookup_insert_ne. }
  rewrite (handshake_effect c (JStr id) user_agent url now1 now2 w1 (KStr id))
    by done.
  split; [|done]. split; simpl.
  - by rewrite lookup_insert_eq.
  - intros c' Hc'. rewrite lookup_insert_ne by done. rewrite Hh by done. auto.
Qed.

(** The buffer of a device after its handshake and a stretch of traffic:
    its own regular events, stamped, pushed in order on what was there. *)
Lemma stream_after_handshake w0 c id user_agent url now1 now2 trace :
  id ≠ "" →
  (∀ c', c' ≠ c → handlers w0 !! c' ≠ Some (JStr id)) →
  forallb (undisturbed c id) trace = true →
  get_events
    (run (DeviceConnect c ::
          DeviceMessage c (Json (auth_frame (JStr id) user_agent url))
            now1 now2 :: trace) w0) (KStr id) =
  foldl ring_push (get_events w0 (KStr id))
        (stamp (JStr id) <$> events_of c trace).
Proof.
  intros Hid Hother Hq.
  destruct (handshake_owner c id user_agent url now1 now2 w0 Hother)
    as [Hown He].
  change (run (?a :: ?b :: trace) w0) with (run trace (run [a; b] w0)).
  destruct (run_stream c id trace _ Hid Hown Hq) as [_ ->].
  unfold get_events. by rewrite He.
Qed.

(** * Replay of a device's events *)

(** C5 (amended): let a device connect and complete a handshake with a
    non-empty deviceId under which nothing is buffered yet and to which no
    other running connection is bound.  Let it then send regular events
    (frames that parse to an object whose type is not [_auth]), at most 1000
    of them, without terminating and without sending another handshake frame
    that carries a deviceId, while no other connection sends a handshake
    frame carrying that deviceId.  Then [GetEvents] of the deviceId is
    exactly those events, each stamped with the deviceId, in the order sent.
    The other connections may do anything else meanwhile. *)
Theorem replay_up_to_capacity w0 c id user_agent url now1 now2 trace :
  id ≠ "" →
  get_events w0 (KStr id) = [] →
  (∀ c', c' ≠ c → handlers w0 !! c' ≠ Some (JStr id)) →
  forallb (undisturbed c id) trace = true →
  length (events_of c trace) ≤ 1000 →
  get_events
    (run (DeviceConnect c ::
          DeviceMessage c (Json (auth_frame (JStr id) user_agent url))
            now1 now2 :: trace) w0) (KStr id) =
  stamp (JStr id) <$> events_of c trace.
Proof.
  intros Hid Hempty Hother Hq Hlen.
  rewrite stream_after_handshake by done. rewrite Hempty.
  apply ring_push_fold_short. rewrite length_fmap. simpl. lia.
Qed.

(** C4 (amended): let a device connect and complete a handshake with a
    non-empty deviceId to which no other running connection is bound.  Let
    it then send more than 1000 regular events, without terminating and
    without sending another handshake frame that carries a deviceId, while
    no other connection sends a handshake frame carrying that deviceId.
    Then [GetEvents] of the deviceId is exactly the last 1000 of those
    events, each stamped with the deviceId, in the order sent, whatever was
    buffered before.  The other connections may do anything else
    meanwhile. *)
Theorem replay_past_capacity w0 c id user_agent url now1 now2 trace :
  id ≠ "" →
  (∀ c', c' ≠ c → handlers w0 !! c' ≠ Some (JStr id)) →
  forallb (undisturbed c id) trace = true →
  1000 < length (events_of c trace) →
  get_events
    (run (DeviceConnect c ::
          DeviceMessage c (Json (auth_frame (JStr id) user_agent url))
            now1 now2 :: trace) w0) (KStr id) =
  stamp (JStr id) <$>
    drop (length (events_of c trace) - 1000) (events_of c trace).
Proof.
  intros Hid Hother Hq Hlen.
  rewrite stream_after_handshake by done.
  rewrite ring_push_fold_long by (by rewrite length_fmap).
  by rewrite length_fmap, fmap_drop.
Qed.

Lemma replay_up_to_capacity_witness :
  get_events
    (run (DeviceConnect 1 :: DeviceMessage 1 dev1_auth "t0" "t1" :: three_events)
         initial) (KStr "dev1") =
  stamp (JStr "dev1") <$> [log_event 1; log_event 2; log_event 3].
Proof.
  apply (replay_up_to_capacity initial 1 "dev1" (JStr "Mozilla/5.0")
           (JStr "http://app/") "t0" "t1" three_events).
  - done.
  - reflexivity.
  - intros c' _. simpl. by rewrite lookup_empty.
  - reflexivity.
  - simpl. lia.
Defined.

Lemma replay_past_capacity_witness :
  get_events
    (run (DeviceConnect 1 :: DeviceMessage 1 dev1_auth "t0" "t1" ::
          many_events 1001) initial) (KStr "dev1") =
  stamp (JStr "dev1") <$>
    drop (length (events_of 1 (many_events 1001)) - 1000)
         (events_of 1 (many_events 1001)).
Proof.
  apply (replay_past_capacity initial 1 "dev1" (JStr "Mozilla/5.0")
           (JStr "http://app/") "t0" "t1" (many_events 1001)).
  - done.
  - intros c' _. simpl. by rewrite lookup_empty.
  - vm_compute. reflexivity.
  - vm_compute. lia.
Defined.

(** C5 as stated fails in two ways.  A device whose deviceId is the empty
    string completes its handshake (it is registered and announced) and the
    event it sends afterwards is dropped by [if device_id:].  And a device
    that shakes hands under a deviceId to which another running connection
    is bound shares the buffer with it: the events of the two come back
    interleaved. *)
Lemma replay_fails_for_empty_or_shared_id :
  let anonymous := [DeviceConnect 1; DeviceMessage 1 anonymous_auth "t0" "t1";
                    DeviceMessage 1 (Json (JObj (log_event 1))) "t2" "t2"] in
  let shared := [DeviceConnect 2; DeviceMessage 2 dev1_auth "t0" "t1";
                 DeviceConnect 1; DeviceMessage 1 dev1_auth "t2" "t3";
                 DeviceMessage 1 (Json (JObj (log_event 1))) "t4" "t4";
                 DeviceMessage 2 (Json (JObj (log_event 9))) "t5" "t5";
                 DeviceMessage 1 (Json (JObj (log_event 2))) "t6" "t6"] in
  (devices (run anonymous initial) !! KStr "" = Some 1 ∧
   events_of 1 anonymous = [log_event 1] ∧
   get_events (run anonymous initial) (KStr "") = [] ∧
   get_events (run anonymous initial) (KStr "") ≠
     stamp (JStr "") <$> events_of 1 anonymous) ∧
  (devices (run shared initial) !! KStr "dev1" = Some 1 ∧
   events_of 1 shared = [log_event 1; log_event 2] ∧
   get_events (run shared initial) (KStr "dev1") =
     stamp (JStr "dev1") <$> [log_event 1; log_event 9; log_event 2] ∧
   get_events (run shared initial) (KStr "dev1") ≠
     stamp (JStr "dev1") <$> events_of 1 shared).
Proof. vm_compute. by repeat split. Qed.

(** C4 as stated fails in the same two ways: with the empty string as
    deviceId none of 1001 events is kept; and with a deviceId shared with a
    connection bound to it before, the last 1000 envelopes of the buffer are
    not the last 1000 events of the device: an event of the other connection
    sits among them. *)
Lemma replay_past_capacity_fails_for_empty_or_shared_id :
  let anonymous := DeviceConnect 1 :: DeviceMessage 1 anonymous_auth "t0" "t1" ::
                   many_events 1001 in
  let shared := [DeviceConnect 2; DeviceMessage 2 dev1_auth "t0" "t1";
                 DeviceConnect 1; DeviceMessage 1 dev1_auth "t2" "t3"] ++
                take 500 (many_events 1001) ++
                [DeviceMessage 2 (Json (JObj (log_event (-1)))) "t5" "t5"] ++
                drop 500 (many_events 1001) in
  (devices (run anonymous initial) !! KStr "" = Some 1 ∧
   length (events_of 1 anonymous) = 1001 ∧
   get_events (run anonymous initial) (KStr "") = [] ∧
   get_events (run anonymous initial) (KStr "") ≠
     stamp (JStr "") <$>
       drop (length (events_of 1 anonymous) - 1000) (events_of 1 anonymous)) ∧
  (devices (run shared initial) !! KStr "dev1" = Some 1 ∧
   length (events_of 1 shared) = 1001 ∧
   get_events (run shared initial) (KStr "dev1") !! 498 =
     Some (stamp (JStr "dev1") (log_event (-1))) ∧
   get_events (run shared initial) (KStr "dev1") ≠
     stamp (JStr "dev1") <$>
       drop (length (events_of 1 shared) - 1000) (events_of 1 shared)).
Proof. vm_compute. by repeat split. Qed.

(** * Handshake frames never reach a buffer *)

Lemma is_auth_stamp d fields :
  is_auth (stamp d fields) = is_auth (JObj fields).
Proof.
  unfold is_auth, stamp. by rewrite pydict_get_set_ne.
Qed.

Lemma step_device_events a w :
  device_events (step a w) = device_events w ∨
  ∃ fields d k,
    is_auth (JObj fields) = false ∧
    device_events (step a w) =
      <[k := ring_push (get_events w k) (stamp d fields)]> (device_events w).
Proof.
  destruct a as [c|c message now1 now2|c|c|c message|c|c]; cbn [step].
  - left. by destruct (decide _).
  - destruct (decide _); [|by left].
    destruct (device_message_effect c message now1 now2 w)
      as [(He & _)|(fields & d & k & _ & Ha & _ & _ & _ & _ & He)];
      [by left|right; eauto].
  - left. destruct (decide _); [|done].
    unfold with_handlers. cbn [device_events].
    by destruct (finally_effect c (mark_closed c w)) as (-> & _).
  - left. by destruct (subscriber_open_effect c w) as (_ & -> & _).
  - left. by destruct (subscriber_message_same_registry c message w)
      as (_ & -> & _).
  - by left.
  - by left.
Qed.

Lemma step_no_auth_stored a w :
  no_auth_stored w → no_auth_stored (step a w).
Proof.
  intros Hw k. unfold get_events.
  destruct (step_device_events a w) as [->|(fields & d & k' & Ha & ->)];
    [apply Hw|].
  destruct (decide (k = k')) as [->|Hne].
  - rewrite lookup_insert_eq. simpl. rewrite ring_push_slice.
    apply Forall_drop, Forall_app. split; [apply Hw|].
    apply Forall_singleton. by rewrite is_auth_stamp.
  - rewrite lookup_insert_ne by done. apply Hw.
Qed.

(** C6: in every state the hub reaches from its start, whatever the
    connections do, no buffer of any device holds an envelope whose type is
    [_auth]. *)
Theorem auth_never_stored (trace : list action) (k : key) :
  Forall (λ e, is_auth e = false) (get_events (run trace initial) k).
Proof.
  assert (∀ w, no_auth_stored w → no_auth_stored (run trace w)) as Hrun.
  { induction trace as [|a trace IH]; intros w Hw; [done|].
    apply (IH (step a w)), step_no_auth_stored, Hw. }
  apply Hrun. intros k'. unfold get_events. simpl.
  rewrite lookup_empty. constructor.
Qed.

(** * Broadcast with failing subscribers *)

(** C7: one pass of [broadcast_to_subscribers] returns without raising; it
    queues the message once for every subscriber whose connection is not
    closed, in the order of the pass, whether or not other sends failed;
    afterwards the subscriber set is the former one without the members
    whose send failed; nothing else changes. *)
Theorem broadcast_isolates_failures (message : json) (w : world) :
  ∃ w', broadcast_to_subscribers message w = (Ret tt, w') ∧
    outbox w' =
      outbox w ++
      ((λ s, (s, message)) <$>
         filter (λ s, s ∉ closed w) (elements (subscribers w))) ∧
    (∀ s, s ∈ subscribers w → s ∉ closed w →
          (s, message) ∈ drop (length (outbox w)) (outbox w') ∧
          s ∈ subscribers w') ∧
    (∀ s, s ∈ subscribers w → s ∈ closed w → s ∉ subscribers w') ∧
    subscribers w' ⊆ subscribers w ∧
    devices w' = devices w ∧ device_events w' = device_events w ∧
    device_info w' = device_info w ∧ closed w' = closed w ∧
    handlers w' = handlers w.
Proof.
  exists (broadcast_result message w). split; [apply broadcast_spec|].
  unfold broadcast_result, deliveries. simpl. split_and!; try done.
  - intros s Hs Hopen. split; [|set_solver].
    rewrite drop_app_length. apply list_elem_of_fmap. exists s. split; [done|].
    apply list_elem_of_filter. split; [done|]. by apply elem_of_elements.
  - set_solver.
  - set_solver.
Qed.

Lemma broadcast_example_one_closed :
  let w := World ∅ ∅ [] {[7; 8; 9]} {[8]} [] ∅ in
  let w' := exec (broadcast_to_subscribers (JObj (log_event 1))) w in
  elements (subscribers w') = [9; 7] ∧
  outbox w' = [(9, JObj (log_event 1)); (7, JObj (log_event 1))].
Proof. vm_compute. done. Qed.

(** * Termination of a device connection *)

Lemma step_disconnect c w :
  c ∈ dom (handlers w) →
  step (DeviceDisconnect c) w =
  with_handlers (delete c) (exec (handle_device_finally c) (mark_closed c w)).
Proof. intros Hrun. cbn [step]. by rewrite decide_True. Qed.

(** C3, what the code does: a device shakes hands as [dev1] and its
    connection terminates.  The connection mapping of [dev1] is removed and
    [device.disconnected] is broadcast, but the DeviceInfo of [dev1] is still
    on file: a subscriber that connects afterwards is greeted with a
    [devices.list], the list the source calls the connected devices, that
    holds [dev1], and so does the list served at [/api/devices]. *)
Theorem disconnected_device_stays_listed :
  let info := new_info (JStr "dev1") (JStr "Mozilla/5.0") (JStr "http://app/")
                       "t0" "t1" in
  let w := run [SubscriberConnect 7; DeviceConnect 1;
                DeviceMessage 1 dev1_auth "t0" "t1"] initial in
  let w' := step (DeviceDisconnect 1) w in
  let w'' := step (SubscriberConnect 8) w' in
  handlers w !! 1 = Some (JStr "dev1") ∧
  devices w !! KStr "dev1" = Some 1 ∧
  devices w' !! KStr "dev1" = None ∧
  outbox w' = outbox w ++ [(7, disconnected_event (JStr "dev1"))] ∧
  device_info w' = [(KStr "dev1", info)] ∧
  outbox w'' =
    outbox w' ++
    [(8, JObj [("type", JStr "devices.list"); ("payload", JArr [JObj info])])] ∧
  http_handler "/api/devices" w' = Response 200 (JArr [JObj info]).
Proof. vm_compute. by repeat split. Qed.

(** What the [finally] block does whenever a mapping is present for the
    truthy deviceId bound to the terminating connection, whichever
    connection the mapping names: the mapping is deleted, the DeviceInfo
    entries and the ring buffers are left as they are, and one
    [device.disconnected] event carrying the deviceId is queued for every
    subscriber whose connection is open. *)
Theorem disconnect_unregisters c d k c' w :
  handlers w !! c = Some d → truthy d = true → hash_key d = Some k →
  devices w !! k = Some c' →
  let w' := step (DeviceDisconnect c) w in
  devices w' = delete k (devices w) ∧
  device_info w' = device_info w ∧
  device_events w' = device_events w ∧
  outbox w' =
    outbox w ++ deliveries (disconnected_event d) (mark_closed c w) ∧
  (∀ s, s ∈ subscribers w → s ∉ closed w → s ≠ c →
        (s, disconnected_event d) ∈ drop (length (outbox w)) (outbox w')).
Proof.
  intros Hd Ht Hk Hdev.
  assert (c ∈ dom (handlers w)) as Hrun by (apply elem_of_dom; eauto).
  cbv zeta. rewrite step_disconnect by done.
  unfold exec. rewrite handle_device_finally_spec. simpl.
  rewrite Hd. simpl. rewrite Ht, Hk.
  rewrite decide_True by (apply elem_of_dom; eauto). simpl.
  split_and!; try done.
  intros s Hs Hopen Hne. rewrite drop_app_length. unfold deliveries. simpl.
  apply list_elem_of_fmap. exists s. split; [done|].
  apply list_elem_of_filter. split; [set_solver|]. by apply elem_of_elements.
Qed.

Lemma disconnect_unregisters_witness :
  let w := run [SubscriberConnect 7; DeviceConnect 1;
                DeviceMessage 1 dev1_auth "t0" "t1";
                DeviceMessage 1 (Json (JObj (log_event 1))) "t2" "t2"]
               initial in
  let w' := step (DeviceDisconnect 1) w in
  devices w' = delete (KStr "dev1") (devices w) ∧
  device_info w' = device_info w ∧
  device_events w' = device_events w ∧
  outbox w' =
    outbox w ++ deliveries (disconnected_event (JStr "dev1")) (mark_closed 1 w) ∧
  (∀ s, s ∈ subscribers w → s ∉ closed w → s ≠ 1 →
        (s, disconnected_event (JStr "dev1")) ∈
          drop (length (outbox w)) (outbox w')).
Proof.
  apply (disconnect_unregisters 1 (JStr "dev1") (KStr "dev1") 1);
    vm_compute; reflexivity.
Defined.

(** When a device connection terminates while its [device_id] is still
    [None], the connection mappings, the DeviceInfo entries, the ring buffers
    and the subscriber set are what they were and nothing is sent to
    anyone. *)
Theorem unauthenticated_disconnect_is_silent c w :
  handlers w !! c = Some JNull →
  let w' := step (DeviceDisconnect c) w in
  devices w' = devices w ∧ device_events w' = device_events w ∧
  device_info w' = device_info w ∧ subscribers w' = subscribers w ∧
  outbox w' = outbox w.
Proof.
  intros Hd.
  assert (c ∈ dom (handlers w)) as Hrun by (apply elem_of_dom; eauto).
  cbv zeta. rewrite step_disconnect by done.
  unfold exec. rewrite handle_device_finally_spec. simpl.
  by rewrite Hd.
Qed.

Lemma unauthenticated_disconnect_is_silent_witness :
  let w := run [SubscriberConnect 7; DeviceConnect 1;
                DeviceMessage 1 dev1_auth "t0" "t1"; DeviceConnect 2;
                DeviceMessage 2 (Json (JObj (log_event 1))) "t2" "t2";
                DeviceMessage 2 Garbage "t3" "t3"] initial in
  let w' := step (DeviceDisconnect 2) w in
  devices w' = devices w ∧ device_events w' = device_events w ∧
  device_info w' = device_info w ∧ subscribers w' = subscribers w ∧
  outbox w' = outbox w.
Proof.
  apply (unauthenticated_disconnect_is_silent 2). vm_compute. reflexivity.
Defined.

(** C9, what the code does: a connection whose only handshake frame has a
    deviceId and no userAgent has completed no handshake: no DeviceInfo is
    written and no [device.connected] is announced.  Its termination all
    the same deletes the connection mapping the failed handshake left and
    broadcasts [device.disconnected] for a device that was never announced. *)
Theorem failed_handshake_disconnect_is_announced :
  let partial_auth :=
    Json (JObj [("type", JStr "_auth");
                ("payload", JObj [("deviceId", JStr "dev1")])]) in
  let w0 := run [SubscriberConnect 7; DeviceConnect 1] initial in
  let w := step (DeviceMessage 1 partial_auth "t0" "t1") w0 in
  let w' := step (DeviceDisconnect 1) w in
  device_info w = [] ∧
  outbox w = outbox w0 ∧
  devices w0 !! KStr "dev1" = None ∧
  devices w !! KStr "dev1" = Some 1 ∧
  devices w' !! KStr "dev1" = None ∧
  outbox w' = outbox w ++ [(7, disconnected_event (JStr "dev1"))].
Proof. vm_compute. by repeat split. Qed.

(** * Handshakes *)

(** A complete handshake makes the connection the one mapped to its
    deviceId, over whatever was mapped before. *)
Lemma handshake_wins c d user_agent url now1 now2 w k :
  c ∈ dom (handlers w) → hash_key d = Some k →
  let w' := step (DeviceMessage c (Json (auth_frame d user_agent url))
                    now1 now2) w in
  devices w' !! k = Some c ∧ handlers w' !! c = Some d ∧
  PyDict.get k (device_info w') = Some (new_info d user_agent url now1 now2).
Proof.
  intros Hrun Hk. cbv zeta.
  rewrite (handshake_effect c d user_agent url now1 now2 w k) by done. simpl.
  rewrite !lookup_insert_eq. by rewrite pydict_get_set_eq.
Qed.

(** A handshake frame from which no deviceId can be read changes nothing. *)
Lemma handshake_without_id_is_noop c fields now1 now2 w :
  is_auth (JObj fields) = true → payload_device_id fields = None →
  step (DeviceMessage c (Json (JObj fields)) now1 now2) w = w.
Proof.
  intros Ha Hp. cbn [step]. destruct (decide _); [|done].
  rewrite exec_handle_device_message, device_message_dict, Ha.
  rewrite authenticate_spec. unfold payload_device_id in Hp.
  destruct (PyDict.get "payload" fields) as [[| | | | |payload]|]; try done.
  by rewrite Hp.
Qed.

(** A handshake frame with a deviceId and no userAgent stops after it has
    bound the deviceId and written the connection mapping. *)
Lemma handshake_without_user_agent c fields payload d k now1 now2 w :
  c ∈ dom (handlers w) → is_auth (JObj fields) = true →
  PyDict.get "payload" fields = Some (JObj payload) →
  PyDict.get "deviceId" payload = Some d → hash_key d = Some k →
  PyDict.get "userAgent" payload = None →
  step (DeviceMessage c (Json (JObj fields)) now1 now2) w =
  with_devices <[k := c]> (with_handlers <[c := d]> w).
Proof.
  intros Hrun Ha Hp Hd Hk Hua. cbn [step]. rewrite decide_True by done.
  rewrite exec_handle_device_message, device_message_dict, Ha.
  rewrite authenticate_spec. by rewrite Hp, Hd, Hk, Hua.
Qed.

(** Before any identity is bound, a frame that is not a handshake carrying
    a deviceId is dropped without a trace. *)
Lemma unbound_frame_is_noop c message now1 now2 w :
  handlers w !! c = Some JNull → claimed_id message = None →
  step (DeviceMessage c message now1 now2) w = w.
Proof.
  intros Hd Hcl. cbn [step]. destruct (decide _); [|done].
  rewrite exec_handle_device_message.
  destruct message as [|v]; [done|].
  assert ((∃ fields, v = JObj fields) ∨ ∀ fields, v ≠ JObj fields)
    as [[fields ->]|Hv] by (destruct v; eauto);
    [|by rewrite device_message_not_dict].
  rewrite device_message_dict. unfold claimed_id in Hcl.
  destruct (is_auth (JObj fields)) eqn:Ha.
  - rewrite authenticate_spec. unfold payload_device_id in Hcl.
    destruct (PyDict.get "payload" fields) as [[| | | | |payload]|]; try done.
    by rewrite Hcl.
  - by rewrite (store_event_falsy c _ now1 JNull) by (by rewrite ?Hd).
Qed.

(** C2, what the code does: a handshake frame that carries a deviceId but no
    userAgent has already bound the deviceId to the connection and written
    the connection mapping when the missing field is noticed; no DeviceInfo
    is written and nothing is announced; a later event of the connection is
    buffered under the deviceId and is not broadcast. *)
Theorem partial_handshake_registers :
  let partial_auth :=
    Json (JObj [("type", JStr "_auth");
                ("payload", JObj [("deviceId", JStr "dev1")])]) in
  let w0 := run [SubscriberConnect 7; DeviceConnect 1] initial in
  let w := step (DeviceMessage 1 partial_auth "t0" "t1") w0 in
  let w' := step (DeviceMessage 1 (Json (JObj (log_event 1))) "t2" "t2") w in
  devices w0 !! KStr "dev1" = None ∧
  handlers w0 !! 1 = Some JNull ∧
  devices w !! KStr "dev1" = Some 1 ∧
  handlers w !! 1 = Some (JStr "dev1") ∧
  device_info w = [] ∧
  outbox w = outbox w0 ∧
  get_events w' (KStr "dev1") = [stamp (JStr "dev1") (log_event 1)] ∧
  outbox w' = outbox w0.
Proof. vm_compute. by repeat split. Qed.

(** C1, what the code does: two connections shake hands as [dev1], the
    second after the first; the mapping is the second connection's; when the
    first connection then terminates, the mapping of [dev1] is deleted and
    [device.disconnected] is broadcast although the second connection is
    still open and bound to [dev1]; a command for [dev1] is then dropped. *)
Theorem stale_disconnect_drops_live_mapping :
  let w := run [SubscriberConnect 7;
                DeviceConnect 1; DeviceMessage 1 dev1_auth "t0" "t1";
                DeviceConnect 2; DeviceMessage 2 dev1_auth "t2" "t3"]
               initial in
  let w' := step (DeviceDisconnect 1) w in
  let command :=
    Json (JObj [("type", JStr "device.send_command");
                ("deviceId", JStr "dev1"); ("command", JStr "reload")]) in
  devices w !! KStr "dev1" = Some 2 ∧
  devices w' !! KStr "dev1" = None ∧
  handlers w' !! 2 = Some (JStr "dev1") ∧
  elements (closed w') = [1] ∧
  outbox w' = outbox w ++ [(7, disconnected_event (JStr "dev1"))] ∧
  step (SubscriberMessage 7 command) w' = w'.
Proof. vm_compute. by repeat split. Qed.

(** * Subscriber commands *)

(** C8: a replay request for a deviceId under which nothing is buffered,
    and a command for a deviceId to which no connection is mapped, raise
    nothing: the body of the handler's [try] returns normally, no [except]
    clause is entered.  The request is answered, to the requesting subscriber
    only, with an empty list of events; the command sends nothing and leaves
    the state exactly as it was. *)
Theorem unknown_device_is_no_error c d k d' k' request command w :
  hash_key d = Some k → device_events w !! k = None →
  PyDict.get "type" request = Some (JStr "device.request_events") →
  PyDict.get "deviceId" request = Some d →
  c ∉ closed w →
  hash_key d' = Some k' → devices w !! k' = None →
  PyDict.get "type" command = Some (JStr "device.send_command") →
  PyDict.get "deviceId" command = Some d' →
  subscriber_message c (Json (JObj request)) w =
    (Ret tt, with_outbox (λ o, o ++ [(c, events_reply d [])]) w) ∧
  subscriber_message c (Json (JObj command)) w = (Ret tt, w).
Proof.
  intros Hk He Hrt Hrd Hc Hk' Hd' Hct Hcd.
  rewrite !subscriber_message_spec. rewrite Hrt, Hrd, Hct, Hcd, Hk, Hk', Hd'.
  unfold get_events. rewrite He. simpl. by rewrite send_open.
Qed.

Lemma unknown_device_is_no_error_witness :
  let w := run [DeviceConnect 1; DeviceMessage 1 dev1_auth "t0" "t1";
                DeviceMessage 1 (Json (JObj (log_event 1))) "t2" "t2";
                DeviceDisconnect 1; SubscriberConnect 7] initial in
  let request := [("type", JStr "device.request_events");
                  ("deviceId", JStr "ghost")] in
  let command := [("type", JStr "device.send_command");
                  ("deviceId", JStr "dev1"); ("command", JStr "reload")] in
  subscriber_message 7 (Json (JObj request)) w =
    (Ret tt, with_outbox (λ o, o ++ [(7, events_reply (JStr "ghost") [])]) w) ∧
  subscriber_message 7 (Json (JObj command)) w = (Ret tt, w).
Proof.
  apply (unknown_device_is_no_error 7 (JStr "ghost") (KStr "ghost")
           (JStr "dev1") (KStr "dev1"));
    vm_compute; first [reflexivity | by intros [=]].
Defined.

(** C10: a command for a connected device that carries no [payload] field
    is forwarded to that device with the empty object as its payload. *)
Theorem command_payload_defaults_to_empty c d k device cmd fields w :
  PyDict.get "type" fields = Some (JStr "device.send_command") →
  PyDict.get "deviceId" fields = Some d → hash_key d = Some k →
  devices w !! k = Some device →
  PyDict.get "command" fields = Some cmd →
  PyDict.get "payload" fields = None →
  device ∉ closed w →
  handle_subscriber_message c (Json (JObj fields)) w =
    (Ret tt,
     with_outbox (λ o, o ++ [(device, command_message cmd (JObj []))]) w).
Proof.
  intros Ht Hd Hk Hdev Hcmd Hp Hopen.
  unfold handle_subscriber_message, try_except.
  rewrite subscriber_message_spec. rewrite Ht, Hd, Hk, Hdev, Hcmd, Hp. simpl.
  by rewrite send_open.
Qed.

Lemma command_payload_defaults_to_empty_witness :
  let w := run [DeviceConnect 1; DeviceMessage 1 dev1_auth "t0" "t1";
                SubscriberConnect 7] initial in
  let fields := [("type", JStr "device.send_command");
                 ("deviceId", JStr "dev1"); ("command", JStr "reload")] in
  handle_subscriber_message 7 (Json (JObj fields)) w =
    (Ret tt,
     with_outbox
       (λ o, o ++ [(1, command_message (JStr "reload") (JObj []))]) w).
Proof.
  apply (command_payload_defaults_to_empty 7 (JStr "dev1") (KStr "dev1"));
    vm_compute; first [reflexivity | by intros [=]].
Defined.

(** * Two end-to-end runs *)

(** A device shakes hands and sends three events; a subscriber then
    connects, is greeted with the list of devices, asks for the events of the
    device and gets the three of them in order. *)
Lemma scenario_replay :
  let w := run [DeviceConnect 1; DeviceMessage 1 dev1_auth "t0" "t1";
                DeviceMessage 1 (Json (JObj (log_event 1))) "t2" "t2";
                DeviceMessage 1 (Json (JObj (log_event 2))) "t3" "t3";
                DeviceMessage 1 (Json (JObj (log_event 3))) "t4" "t4";
                SubscriberConnect 7;
                SubscriberMessage 7
                  (Json (JObj [("type", JStr "device.request_events");
                               ("deviceId", JStr "dev1")]))] initial in
  outbox w =
    [(7, JObj [("type", JStr "devices.list");
               ("payload",
                JArr [JObj (new_info (JStr "dev1") (JStr "Mozilla/5.0")
                              (JStr "http://app/") "t0" "t4")])]);
     (7, events_reply (JStr "dev1")
           (stamp (JStr "dev1") <$> [log_event 1; log_event 2; log_event 3]))].
Proof. vm_compute. reflexivity. Qed.

(** A subscriber sends a command for a connected device: the connection of
    the device receives exactly one [command] message. *)
Lemma scenario_command :
  let w := run [DeviceConnect 1; DeviceMessage 1 dev1_auth "t0" "t1";
                SubscriberConnect 7] initial in
  let command :=
    Json (JObj [("type", JStr "device.send_command");
                ("deviceId", JStr "dev1"); ("command", JStr "reload");
                ("payload", JObj [("hard", JBool true)])]) in
  outbox (step (SubscriberMessage 7 command) w) =
    outbox w ++
    [(1, command_message (JStr "reload") (JObj [("hard", JBool true)]))].
Proof. vm_compute. reflexivity. Qed.

(** * The buffers, step by step *)

(** An action changes the buffers only if it is a regular event of a
    connection bound to a truthy, hashable identity, and then by one push of
    the stamped event on the buffer of that identity. *)
Lemma step_buffers a w :
  device_events (step a w) = device_events w ∨
  ∃ c fields d k,
    handlers w !! c = Some d ∧ truthy d = true ∧ hash_key d = Some k ∧
    events_of c [a] = [fields] ∧
    device_events (step a w) =
      <[k := ring_push (get_events w k) (stamp d fields)]> (device_events w).
Proof.
  destruct a as [c|c message now1 now2|c|c|c message|c|c]; cbn [step].
  - left. by destruct (decide _).
  - destruct (decide _); [|by left].
    destruct (device_message_effect c message now1 now2 w)
      as [(He & _)|(fields & d & k & -> & Ha & Hd & Ht & Hk & _ & He)];
      [by left|right].
    exists c, fields, d, k. split_and!; try done.
    unfold events_of. simpl. by rewrite decide_True, Ha.
  - left. destruct (decide _); [|done].
    unfold with_handlers. cbn [device_events].
    by destruct (finally_effect c (mark_closed c w)) as (-> & _).
  - left. by destruct (subscriber_open_effect c w) as (_ & -> & _).
  - left. by destruct (subscriber_message_same_registry c message w)
      as (_ & -> & _).
  - by left.
  - by left.
Qed.

Lemma ring_push_length history event :
  length (ring_push history event) ≤ 1000.
Proof.
  rewrite ring_push_slice, py_slice_last_length. lia.
Qed.

Lemma stamp_envelope d k fields :
  truthy d = true → hash_key d = Some k → envelope_of k (stamp d fields).
Proof.
  intros Ht Hk. exists (PyDict.set "deviceId" d fields), d.
  split_and!; try done. apply pydict_get_set_eq.
Qed.

(** X1: whatever the connections do, no buffer ever holds more than 1000
    envelopes. *)
Theorem buffers_bounded (trace : list action) (k : key) :
  length (get_events (run trace initial) k) ≤ 1000.
Proof.
  assert (∀ w, (∀ k, length (get_events w k) ≤ 1000) →
               ∀ k, length (get_events (run trace w) k) ≤ 1000) as Hrun.
  { induction trace as [|a trace IH]; intros w Hw; [done|].
    apply (IH (step a w)). intros k'. unfold get_events.
    destruct (step_buffers a w) as [->|(c & fields & d & k0 & _ & _ & _ & _ & ->)];
      [apply Hw|].
    destruct (decide (k' = k0)) as [->|Hne].
    - rewrite lookup_insert_eq. apply ring_push_length.
    - rewrite lookup_insert_ne by done. apply Hw. }
  apply Hrun. intros k'. unfold get_events. simpl. rewrite lookup_empty.
  simpl. lia.
Qed.

(** X2: every envelope a buffer holds is an object whose [deviceId] field
    is a truthy value that is the very key of the buffer: the identity is
    the one the connection was bound to, never the one on the wire. *)
Theorem stored_events_carry_their_key (trace : list action) (k : key) :
  Forall (envelope_of k) (get_events (run trace initial) k).
Proof.
  assert (∀ w, (∀ k, Forall (envelope_of k) (get_events w k)) →
               ∀ k, Forall (envelope_of k) (get_events (run trace w) k))
    as Hrun.
  { induction trace as [|a trace IH]; intros w Hw; [done|].
    apply (IH (step a w)). intros k'. unfold get_events.
    destruct (step_buffers a w)
      as [->|(c & fields & d & k0 & _ & Ht & Hk & _ & ->)]; [apply Hw|].
    destruct (decide (k' = k0)) as [->|Hne].
    - rewrite lookup_insert_eq. simpl. rewrite ring_push_slice.
      apply Forall_drop, Forall_app. split; [apply Hw|].
      apply Forall_singleton. by apply stamp_envelope.
    - rewrite lookup_insert_ne by done. apply Hw. }
  apply Hrun. intros k'. unfold get_events. simpl. rewrite lookup_empty.
  constructor.
Qed.

(** X3: a stretch of traffic in which no connection sends a regular event
    (handshakes, disconnections, subscriber traffic, frames that do not
    parse) leaves every buffer exactly as it was: history outlives the
    connection and is there again after a new handshake. *)
Theorem history_outlives_connections (trace : list action) (w : world) :
  (∀ c, events_of c trace = []) →
  device_events (run trace w) = device_events w.
Proof.
  revert w. induction trace as [|a trace IH]; intros w Hq; [done|].
  change (run (a :: trace) w) with (run trace (step a w)).
  assert (∀ c, events_of c [a] = [] ∧ events_of c trace = []) as Hsplit.
  { intros c. specialize (Hq c). rewrite (events_of_cons c a trace) in Hq.
    by apply app_eq_nil in Hq. }
  rewrite IH by (intros c; apply Hsplit).
  destruct (step_buffers a w) as [->|(c & fields & ? & ? & _ & _ & _ & Hev & _)];
    [done|].
  destruct (Hsplit c) as [Hnil _]. by rewrite Hnil in Hev.
Qed.

Lemma history_outlives_connections_witness :
  let w := run [DeviceConnect 1; DeviceMessage 1 dev1_auth "t0" "t1";
                DeviceMessage 1 (Json (JObj (log_event 1))) "t2" "t2"]
               initial in
  device_events
    (run [DeviceDisconnect 1; SubscriberConnect 7; DeviceConnect 2;
          DeviceMessage 2 Garbage "t3" "t3";
          DeviceMessage 2 dev1_auth "t4" "t5"] w) =
  device_events w.
Proof.
  apply (history_outlives_connections
           [DeviceDisconnect 1; SubscriberConnect 7; DeviceConnect 2;
            DeviceMessage 2 Garbage "t3" "t3";
            DeviceMessage 2 dev1_auth "t4" "t5"]).
  intros c. vm_compute. by destruct c as [|[|[|c]]].
Defined.

(** * The DeviceInfo table, step by step *)

Lemma pydict_set_keys {K V : Type} `{EqDecision K} (k : K) (v : V) d :
  (PyDict.set k v d).*1 = if decide (k ∈ d.*1) then d.*1 else d.*1 ++ [k].
Proof.
  induction d as [|[k' v'] rest IH].
  - cbn [PyDict.set fmap list_fmap]. rewrite decide_False; [done|].
    apply not_elem_of_nil.
  - cbn [PyDict.set]. destruct (decide (k = k')) as [->|Hne].
    + cbn [fmap list_fmap fst]. rewrite decide_True; [done|].
      apply elem_of_cons. by left.
    + cbn [fmap list_fmap fst]. fold (fmap (M:=list) (@fst K V)).
      rewrite IH. destruct (decide (k ∈ rest.*1)) as [Hin|Hin].
      * rewrite decide_True; [done|]. apply elem_of_cons. by right.
      * rewrite decide_False; [done|].
        intros [?|?]%elem_of_cons; done.
Qed.

Lemma pydict_get_elem {K V : Type} `{EqDecision K} (k : K) (v : V) d :
  PyDict.get k d = Some v → (k, v) ∈ d.
Proof.
  induction d as [|[k' v'] rest IH]; simpl; [done|].
  destruct (decide (k = k')) as [->|Hne].
  - intros [= ->]. apply elem_of_cons. by left.
  - intros Hg. apply elem_of_cons. right. by apply IH.
Qed.

Lemma pydict_get_is_Some {K V : Type} `{EqDecision K} (k : K) (d : list (K * V)) :
  is_Some (PyDict.get k d) ↔ k ∈ d.*1.
Proof.
  induction d as [|[k' v'] rest IH]; simpl.
  - split; [by intros [? ?]|]. by intros ?%not_elem_of_nil.
  - destruct (decide (k = k')) as [->|Hne].
    + split; [|by eauto]. intros _. apply elem_of_cons. by left.
    + rewrite IH. rewrite elem_of_cons. naive_solver.
Qed.

Lemma pydict_set_elem {K V : Type} `{EqDecision K} (k : K) (v : V) d entry :
  entry ∈ PyDict.set k v d → entry = (k, v) ∨ entry ∈ d.
Proof.
  induction d as [|[k' v'] rest IH]; simpl.
  - intros ->%list_elem_of_singleton. by left.
  - destruct (decide (k = k')) as [->|Hne].
    + intros [->|Hin]%elem_of_cons; [by left|]. right.
      apply elem_of_cons. by right.
    + intros [->|Hin]%elem_of_cons.
      * right. apply elem_of_cons. by left.
      * destruct (IH Hin) as [->|Hold]; [by left|]. right.
        apply elem_of_cons. by right.
Qed.

(** An action leaves the DeviceInfo table alone, or files the DeviceInfo
    of a handshake under the key of its deviceId, or refreshes [lastSeen]
    in the DeviceInfo of a device. *)
Lemma step_device_info a w :
  device_info (step a w) = device_info w ∨
  (∃ k d user_agent url now1 now2,
     hash_key d = Some k ∧
     device_info (step a w) =
       PyDict.set k (new_info d user_agent url now1 now2) (device_info w)) ∨
  (∃ k info now,
     PyDict.get k (device_info w) = Some info ∧
     device_info (step a w) =
       PyDict.set k (PyDict.set "lastSeen" (JStr now) info) (device_info w)).
Proof.
  destruct a as [c|c message now1 now2|c|c|c message|c|c]; cbn [step].
  - left. by destruct (decide _).
  - destruct (decide _); [|by left].
    rewrite exec_handle_device_message.
    destruct message as [|v]; [by left|].
    assert ((∃ fields, v = JObj fields) ∨ ∀ fields, v ≠ JObj fields)
      as [[fields ->]|Hv] by (destruct v; eauto);
      [|by rewrite device_message_not_dict by done; left].
    rewrite device_message_dict. destruct (is_auth (JObj fields)).
    + rewrite authenticate_spec.
      destruct (PyDict.get "payload" fields) as [[| | | | |payload]|];
        try by left.
      destruct (PyDict.get "deviceId" payload) as [d|]; [|by left].
      cbv zeta. destruct (hash_key d) as [k|] eqn:Hk; [|by left].
      destruct (PyDict.get "userAgent" payload) as [ua|]; [|by left].
      destruct (PyDict.get "url" payload) as [url|]; [|by left].
      right. left. exists k, d, ua, url, now1, now2. by split.
    + destruct (truthy (default JNull (handlers w !! c))) eqn:Ht;
        [|by erewrite store_event_falsy by done; left].
      destruct (handlers w !! c) as [d|] eqn:Hd; [simpl in Ht|done].
      destruct (hash_key d) as [k|] eqn:Hk.
      * rewrite (store_event_spec c fields now1 d k w) by done. cbv zeta.
        destruct (PyDict.get k (device_info w)) as [info|] eqn:Hi;
          [|by left].
        right. right. exists k, info, now1. by split.
      * erewrite store_event_unhashable; [by left|by rewrite Hd|done..].
  - left. destruct (decide _); [|done].
    unfold with_handlers. cbn [device_info].
    by destruct (finally_effect c (mark_closed c w)) as (_ & -> & _).
  - left. by destruct (subscriber_open_effect c w) as (_ & _ & -> & _).
  - left. by destruct (subscriber_message_same_registry c message w)
      as (_ & _ & -> & _).
  - by left.
  - by left.
Qed.

Lemma new_info_of d k user_agent url now1 now2 :
  hash_key d = Some k → info_of k (new_info d user_agent url now1 now2).
Proof. intros Hk. split; [done|]. by exists d. Qed.

Lemma touch_info_of k info now :
  info_of k info → info_of k (PyDict.set "lastSeen" (JStr now) info).
Proof.
  intros [Hkeys (d & Hd & Hk)]. split.
  - rewrite pydict_set_keys, Hkeys. rewrite decide_True; [done|].
    unfold info_keys. set_solver.
  - exists d. split; [|done]. by rewrite pydict_get_set_ne.
Qed.

Lemma set_well_formed k info (table : list (key * dict)) :
  info_of k info →
  NoDup table.*1 ∧ Forall (λ entry, info_of entry.1 entry.2) table →
  NoDup (PyDict.set k info table).*1 ∧
  Forall (λ entry, info_of entry.1 entry.2) (PyDict.set k info table).
Proof.
  intros Hinfo [Hnd Hall]. split.
  - rewrite pydict_set_keys. destruct (decide _) as [Hin|Hin]; [done|].
    apply NoDup_app. split_and!; [done| |apply NoDup_singleton].
    intros x Hx ->%list_elem_of_singleton. done.
  - apply Forall_forall. intros entry [->|Hold]%pydict_set_elem; [done|].
    by apply (proj1 (Forall_forall _ _) Hall).
Qed.

Lemma step_infos_well_formed a w :
  infos_well_formed w → infos_well_formed (step a w).
Proof.
  intros Hw. unfold infos_well_formed.
  destruct (step_device_info a w)
    as [->|[(k & d & ua & url & n1 & n2 & Hk & ->)|(k & info & now & Hi & ->)]].
  - done.
  - apply set_well_formed; [by apply new_info_of|done].
  - apply set_well_formed; [|done]. apply touch_info_of.
    destruct Hw as [_ Hall].
    apply (proj1 (Forall_forall _ _) Hall (k, info)).
    by apply pydict_get_elem.
Qed.

(** X4: in every state the hub reaches, the DeviceInfo table has one entry
    per key, and each entry has exactly the fields deviceId, userAgent, url,
    connectedAt, lastSeen, in this order, with a deviceId that is the key
    the entry is filed under. *)
Theorem device_infos_well_formed (trace : list action) :
  infos_well_formed (run trace initial).
Proof.
  assert (∀ w, infos_well_formed w → infos_well_formed (run trace w)) as Hrun.
  { induction trace as [|a trace IH]; intros w Hw; [done|].
    apply (IH (step a w)), step_infos_well_formed, Hw. }
  apply Hrun. split; simpl; constructor.
Qed.

Lemma step_device_info_kept a w k :
  is_Some (PyDict.get k (device_info w)) →
  is_Some (PyDict.get k (device_info (step a w))).
Proof.
  intros Hk.
  destruct (step_device_info a w)
    as [->|[(k' & d & ua & url & n1 & n2 & _ & ->)|(k' & info & now & _ & ->)]];
    [done| |].
  all: destruct (decide (k' = k)) as [->|Hne];
    [rewrite pydict_get_set_eq; eauto|by rewrite pydict_get_set_ne].
Qed.

Lemma run_device_info_kept trace w k :
  is_Some (PyDict.get k (device_info w)) →
  is_Some (PyDict.get k (device_info (run trace w))).
Proof.
  revert w. induction trace as [|a trace IH]; intros w Hk; [done|].
  apply (IH (step a w)), step_device_info_kept, Hk.
Qed.

(** X5: a DeviceInfo, once written, is there in every later state: no
    disconnection, no handshake and no other traffic removes it. *)
Theorem device_info_never_removed (trace : list action) (w : world) (k : key) :
  is_Some (PyDict.get k (device_info w)) →
  is_Some (PyDict.get k (device_info (run trace w))).
Proof. apply run_device_info_kept. Qed.

Lemma device_info_never_removed_witness :
  let w := run [DeviceConnect 1; DeviceMessage 1 dev1_auth "t0" "t1"] initial in
  is_Some (PyDict.get (KStr "dev1")
             (device_info (run [DeviceDisconnect 1; SubscriberConnect 7;
                                DeviceConnect 2;
                                DeviceMessage 2 anonymous_auth "t2" "t3"] w))).
Proof.
  apply (device_info_never_removed
           [DeviceDisconnect 1; SubscriberConnect 7; DeviceConnect 2;
            DeviceMessage 2 anonymous_auth "t2" "t3"]).
  vm_compute. eauto.
Defined.

(** * Device frames, case by case *)

(** X6: a handshake frame whose payload has a hashable deviceId, a
    userAgent and a url (and whatever else) binds the connection to the
    deviceId, maps the deviceId to the connection over any earlier mapping,
    files a fresh DeviceInfo with both timestamps over any earlier one,
    leaves the buffers alone, and announces [device.connected] with that
    DeviceInfo to every subscriber whose connection is open. *)
Theorem handshake_registers_and_announces
    c fields payload d k user_agent url now1 now2 w :
  c ∈ dom (handlers w) →
  is_auth (JObj fields) = true →
  PyDict.get "payload" fields = Some (JObj payload) →
  PyDict.get "deviceId" payload = Some d → hash_key d = Some k →
  PyDict.get "userAgent" payload = Some user_agent →
  PyDict.get "url" payload = Some url →
  let w' := step (DeviceMessage c (Json (JObj fields)) now1 now2) w in
  let info := new_info d user_agent url now1 now2 in
  handlers w' = <[c := d]> (handlers w) ∧
  devices w' = <[k := c]> (devices w) ∧
  device_info w' = PyDict.set k info (device_info w) ∧
  device_events w' = device_events w ∧
  outbox w' = outbox w ++ deliveries (connected_event info) w ∧
  subscribers w' = subscribers w ∖ closed w.
Proof.
  intros Hrun Ha Hp Hd Hk Hua Hurl. cbv zeta. cbn [step].
  rewrite decide_True by done.
  rewrite exec_handle_device_message, device_message_dict, Ha.
  rewrite authenticate_spec. by rewrite Hp, Hd, Hk, Hua, Hurl.
Qed.

Lemma handshake_registers_and_announces_witness :
  let w := run [SubscriberConnect 7; SubscriberConnect 8; TransportClosed 8;
                DeviceConnect 1] initial in
  let fields := [("type", JStr "_auth"); ("seq", JInt 0);
                 ("payload", JObj [("url", JStr "http://app/");
                                   ("deviceId", JStr "dev1");
                                   ("userAgent", JStr "Mozilla/5.0");
                                   ("screen", JStr "390x844")])] in
  let w' := step (DeviceMessage 1 (Json (JObj fields)) "t0" "t1") w in
  let info := new_info (JStr "dev1") (JStr "Mozilla/5.0") (JStr "http://app/")
                       "t0" "t1" in
  handlers w' = <[1 := JStr "dev1"]> (handlers w) ∧
  devices w' = <[KStr "dev1" := 1]> (devices w) ∧
  device_info w' = PyDict.set (KStr "dev1") info (device_info w) ∧
  device_events w' = device_events w ∧
  outbox w' = outbox w ++ deliveries (connected_event info) w ∧
  subscribers w' = subscribers w ∖ closed w.
Proof.
  apply (handshake_registers_and_announces 1 _
           [("url", JStr "http://app/"); ("deviceId", JStr "dev1");
            ("userAgent", JStr "Mozilla/5.0"); ("screen", JStr "390x844")]
           (JStr "dev1") (KStr "dev1"));
    vm_compute; reflexivity.
Defined.

(** X7: a regular event of a connection bound to a truthy deviceId that has
    a DeviceInfo is pushed, stamped with the deviceId, on the buffer of that
    deviceId; [lastSeen] of the DeviceInfo becomes the clock reading and its
    other fields stay; the stamped event is sent to every subscriber whose
    connection is open; the connection mappings and the binding stay. *)
Theorem event_stored_and_fanned_out c fields d k info now1 now2 w :
  handlers w !! c = Some d → truthy d = true → hash_key d = Some k →
  is_auth (JObj fields) = false →
  PyDict.get k (device_info w) = Some info →
  let w' := step (DeviceMessage c (Json (JObj fields)) now1 now2) w in
  device_events w' =
    <[k := ring_push (get_events w k) (stamp d fields)]> (device_events w) ∧
  device_info w' =
    PyDict.set k (PyDict.set "lastSeen" (JStr now1) info) (device_info w) ∧
  outbox w' = outbox w ++ deliveries (stamp d fields) w ∧
  subscribers w' = subscribers w ∖ closed w ∧
  devices w' = devices w ∧ handlers w' = handlers w.
Proof.
  intros Hd Ht Hk Ha Hi. cbv zeta. cbn [step].
  rewrite decide_True by (apply elem_of_dom; eauto).
  rewrite exec_handle_device_message, device_message_dict, Ha.
  rewrite (store_event_spec c fields now1 d k w) by done. cbv zeta.
  by rewrite Hi.
Qed.

Lemma event_stored_and_fanned_out_witness :
  let w := run [SubscriberConnect 7; DeviceConnect 1;
                DeviceMessage 1 dev1_auth "t0" "t1"] initial in
  let info := new_info (JStr "dev1") (JStr "Mozilla/5.0") (JStr "http://app/")
                       "t0" "t1" in
  let fields := [("type", JStr "network.request"); ("deviceId", JStr "spoof")] in
  let w' := step (DeviceMessage 1 (Json (JObj fields)) "t2" "t3") w in
  device_events w' =
    <[KStr "dev1" := ring_push (get_events w (KStr "dev1"))
                       (stamp (JStr "dev1") fields)]> (device_events w) ∧
  device_info w' =
    PyDict.set (KStr "dev1") (PyDict.set "lastSeen" (JStr "t2") info)
      (device_info w) ∧
  outbox w' = outbox w ++ deliveries (stamp (JStr "dev1") fields) w ∧
  subscribers w' = subscribers w ∖ closed w ∧
  devices w' = devices w ∧ handlers w' = handlers w.
Proof.
  apply (event_stored_and_fanned_out 1 _ (JStr "dev1") (KStr "dev1"));
    vm_compute; reflexivity.
Defined.

(** X8: while no identity is bound to a connection, every frame that is not
    a handshake carrying a deviceId is dropped: the state is exactly what it
    was. *)
Theorem unbound_events_dropped c message now1 now2 w :
  handlers w !! c = Some JNull → claimed_id message = None →
  step (DeviceMessage c message now1 now2) w = w.
Proof. apply unbound_frame_is_noop. Qed.

Lemma unbound_events_dropped_witness :
  let w := run [SubscriberConnect 7; DeviceConnect 1] initial in
  step (DeviceMessage 1 (Json (JObj (log_event 1))) "t0" "t0") w = w.
Proof.
  apply (unbound_events_dropped 1); vm_compute; reflexivity.
Defined.

(** X9: a device frame that does not parse, or parses to anything but an
    object, is skipped: the state is exactly what it was, whatever the
    connection is bound to. *)
Theorem malformed_device_frame_skipped c message now1 now2 w :
  (∀ fields, message ≠ Json (JObj fields)) →
  step (DeviceMessage c message now1 now2) w = w.
Proof.
  intros Hm. cbn [step]. destruct (decide _); [|done].
  rewrite exec_handle_device_message.
  destruct message as [|v]; [done|].
  rewrite device_message_not_dict; [done|]. intros fields ->.
  by apply (Hm fields).
Qed.

Lemma malformed_device_frame_skipped_witness :
  let w := run [SubscriberConnect 7; DeviceConnect 1;
                DeviceMessage 1 dev1_auth "t0" "t1"] initial in
  step (DeviceMessage 1 (Json (JArr [JObj (log_event 1)])) "t2" "t2") w = w.
Proof.
  apply (malformed_device_frame_skipped 1). done.
Defined.

(** X10: a handshake whose deviceId is a list or an object binds the value
    to the connection and registers nothing: no mapping, no DeviceInfo, no
    announcement. *)
Theorem unhashable_identity_registers_nothing
    c fields payload d now1 now2 w :
  c ∈ dom (handlers w) →
  is_auth (JObj fields) = true →
  PyDict.get "payload" fields = Some (JObj payload) →
  PyDict.get "deviceId" payload = Some d → hash_key d = None →
  step (DeviceMessage c (Json (JObj fields)) now1 now2) w =
  with_handlers <[c := d]> w.
Proof.
  intros Hrun Ha Hp Hd Hk. cbn [step]. rewrite decide_True by done.
  rewrite exec_handle_device_message, device_message_dict, Ha.
  rewrite authenticate_spec. by rewrite Hp, Hd, Hk.
Qed.

Lemma unhashable_identity_registers_nothing_witness :
  let w := run [SubscriberConnect 7; DeviceConnect 1] initial in
  step (DeviceMessage 1
          (Json (auth_frame (JArr [JStr "dev1"]) (JStr "ua") (JStr "u")))
          "t0" "t1") w =
  with_handlers <[1 := JArr [JStr "dev1"]]> w.
Proof.
  apply (unhashable_identity_registers_nothing 1 _
           [("deviceId", JArr [JStr "dev1"]); ("userAgent", JStr "ua");
            ("url", JStr "u")]);
    vm_compute; reflexivity.
Defined.

(** * Termination, the other cases *)

(** X11: a connection bound to a falsy deviceId (the empty string, 0,
    false) is never unregistered: when it terminates, the mapping its
    handshake wrote still names it, although it is closed, and nothing is
    sent to anyone. *)
Theorem falsy_identity_never_unregistered c d k w :
  handlers w !! c = Some d → truthy d = false → hash_key d = Some k →
  devices w !! k = Some c →
  let w' := step (DeviceDisconnect c) w in
  devices w' !! k = Some c ∧ c ∈ closed w' ∧
  devices w' = devices w ∧ device_info w' = device_info w ∧
  device_events w' = device_events w ∧ subscribers w' = subscribers w ∧
  outbox w' = outbox w.
Proof.
  intros Hd Ht Hk Hdev.
  assert (c ∈ dom (handlers w)) as Hrun by (apply elem_of_dom; eauto).
  cbv zeta. rewrite step_disconnect by done.
  unfold exec. rewrite handle_device_finally_spec. simpl.
  rewrite Hd. simpl. rewrite Ht. simpl. split_and!; try done. set_solver.
Qed.

Lemma falsy_identity_never_unregistered_witness :
  let w := run [SubscriberConnect 7; DeviceConnect 1;
                DeviceMessage 1 anonymous_auth "t0" "t1"] initial in
  let w' := step (DeviceDisconnect 1) w in
  devices w' !! KStr "" = Some 1 ∧ 1 ∈ closed w' ∧
  devices w' = devices w ∧ device_info w' = device_info w ∧
  device_events w' = device_events w ∧ subscribers w' = subscribers w ∧
  outbox w' = outbox w.
Proof.
  apply (falsy_identity_never_unregistered 1 (JStr "") (KStr ""));
    vm_compute; reflexivity.
Defined.

(** X12: when a connection bound to a truthy deviceId terminates and no
    connection is mapped to that deviceId any more, nothing is removed and
    no [device.disconnected] is sent. *)
Theorem disconnect_without_mapping_is_silent c d k w :
  handlers w !! c = Some d → truthy d = true → hash_key d = Some k →
  devices w !! k = None →
  let w' := step (DeviceDisconnect c) w in
  devices w' = devices w ∧ device_info w' = device_info w ∧
  device_events w' = device_events w ∧ subscribers w' = subscribers w ∧
  outbox w' = outbox w.
Proof.
  intros Hd Ht Hk Hdev.
  assert (c ∈ dom (handlers w)) as Hrun by (apply elem_of_dom; eauto).
  cbv zeta. rewrite step_disconnect by done.
  unfold exec. rewrite handle_device_finally_spec. simpl.
  rewrite Hd. simpl. rewrite Ht, Hk.
  rewrite decide_False; [done|]. by intros [? ?]%elem_of_dom; simplify_eq.
Qed.

Lemma disconnect_without_mapping_is_silent_witness :
  let w := run [SubscriberConnect 7;
                DeviceConnect 1; DeviceMessage 1 dev1_auth "t0" "t1";
                DeviceConnect 2; DeviceMessage 2 dev1_auth "t2" "t3";
                DeviceDisconnect 1] initial in
  let w' := step (DeviceDisconnect 2) w in
  devices w' = devices w ∧ device_info w' = device_info w ∧
  device_events w' = device_events w ∧ subscribers w' = subscribers w ∧
  outbox w' = outbox w.
Proof.
  apply (disconnect_without_mapping_is_silent 2 (JStr "dev1") (KStr "dev1"));
    vm_compute; reflexivity.
Defined.

(** * Subscribers *)

Lemma exec_handle_subscriber_open c w :
  exec (handle_subscriber_open c) w =
  if decide (c ∈ closed w)
  then with_subscribers (λ s, ({[c]} ∪ s) ∖ {[c]}) w
  else with_outbox (λ o, o ++ [(c, devices_list w)])
         (with_subscribers (λ s, {[c]} ∪ s) w).
Proof.
  unfold exec, handle_subscriber_open, handle_subscriber_finally, try_except.
  unfold mbind, M_bind, mret, M_ret, get_world, modify, send. simpl.
  by destruct (decide _).
Qed.

(** X13: a subscriber that connects is added to the subscriber set and is
    sent, alone, one [devices.list] message holding every DeviceInfo on
    file, in the order the devices first shook hands; nothing else
    changes. *)
Theorem subscriber_greeted_with_devices c w :
  c ∉ closed w →
  step (SubscriberConnect c) w =
  with_outbox (λ o, o ++ [(c, devices_list w)])
    (with_subscribers (λ s, {[c]} ∪ s) w).
Proof.
  intros Hc. cbn [step]. rewrite exec_handle_subscriber_open.
  by rewrite decide_False.
Qed.

Lemma subscriber_greeted_with_devices_witness :
  let w := run [DeviceConnect 1; DeviceMessage 1 dev1_auth "t0" "t1";
                DeviceDisconnect 1] initial in
  step (SubscriberConnect 7) w =
  with_outbox (λ o, o ++ [(7, devices_list w)])
    (with_subscribers (λ s, {[7]} ∪ s) w).
Proof.
  apply (subscriber_greeted_with_devices 7). vm_compute. by intros [=].
Defined.

(** X14: a subscriber whose connection is closed before the greeting can
    be sent is not left in the subscriber set. *)
Theorem subscriber_closed_at_greeting_is_dropped c w :
  c ∈ closed w →
  let w' := step (SubscriberConnect c) w in
  (c ∉ subscribers w') ∧
  (∀ s, s ≠ c → (s ∈ subscribers w' ↔ s ∈ subscribers w)) ∧
  outbox w' = outbox w ∧ devices w' = devices w ∧
  device_info w' = device_info w ∧ device_events w' = device_events w.
Proof.
  intros Hc. cbv zeta. cbn [step]. rewrite exec_handle_subscriber_open.
  rewrite decide_True by done. simpl. split_and!; try done; set_solver.
Qed.

Lemma subscriber_closed_at_greeting_is_dropped_witness :
  let w := run [SubscriberConnect 8; TransportClosed 7] initial in
  let w' := step (SubscriberConnect 7) w in
  (7 ∉ subscribers w') ∧
  (∀ s, s ≠ 7 → (s ∈ subscribers w' ↔ s ∈ subscribers w)) ∧
  outbox w' = outbox w ∧ devices w' = devices w ∧
  device_info w' = device_info w ∧ device_events w' = device_events w.
Proof.
  apply (subscriber_closed_at_greeting_is_dropped 7). vm_compute. reflexivity.
Defined.

(** X15: when a subscriber's handler ends, the subscriber is out of the
    subscriber set, the other subscribers are still in it, a broadcast in
    the state it leaves queues nothing for it, and nothing is sent. *)
Theorem departed_subscriber_gets_nothing c w message :
  let w' := step (SubscriberDisconnect c) w in
  (c ∉ subscribers w') ∧
  (∀ s, s ≠ c → (s ∈ subscribers w' ↔ s ∈ subscribers w)) ∧
  (∀ entry, entry ∈ deliveries message w' → entry.1 ≠ c) ∧
  devices w' = devices w ∧ device_info w' = device_info w ∧
  device_events w' = device_events w ∧ outbox w' = outbox w.
Proof.
  cbv zeta. cbn [step]. unfold exec, handle_subscriber_finally, modify.
  simpl. split_and!; try done; [set_solver|set_solver|].
  intros entry (s & -> & Hs)%list_elem_of_fmap.
  apply list_elem_of_filter in Hs as [_ Hs]. apply elem_of_elements in Hs.
  simpl in *. set_solver.
Qed.

(** X16: a replay request naming a hashable deviceId is answered to the
    requesting subscriber alone with the whole buffer of that deviceId,
    oldest first, whether or not the device is connected; nothing else
    changes. *)
Theorem replay_returns_whole_buffer c d k fields w :
  PyDict.get "type" fields = Some (JStr "device.request_events") →
  PyDict.get "deviceId" fields = Some d → hash_key d = Some k →
  c ∉ closed w →
  handle_subscriber_message c (Json (JObj fields)) w =
    (Ret tt,
     with_outbox (λ o, o ++ [(c, events_reply d (get_events w k))]) w).
Proof.
  intros Ht Hd Hk Hc. unfold handle_subscriber_message, try_except.
  rewrite subscriber_message_spec, Ht, Hd, Hk. simpl. by rewrite send_open.
Qed.

Lemma replay_returns_whole_buffer_witness :
  let w := run [DeviceConnect 1; DeviceMessage 1 dev1_auth "t0" "t1";
                DeviceMessage 1 (Json (JObj (log_event 1))) "t2" "t2";
                DeviceMessage 1 (Json (JObj (log_event 2))) "t3" "t3";
                DeviceDisconnect 1; SubscriberConnect 7; SubscriberConnect 8]
               initial in
  let fields := [("type", JStr "device.request_events");
                 ("deviceId", JStr "dev1")] in
  handle_subscriber_message 7 (Json (JObj fields)) w =
    (Ret tt,
     with_outbox
       (λ o, o ++ [(7, events_reply (JStr "dev1")
                         (get_events w (KStr "dev1")))]) w).
Proof.
  apply (replay_returns_whole_buffer 7 (JStr "dev1") (KStr "dev1"));
    vm_compute; first [reflexivity | by intros [=]].
Defined.

(** X17: a command for a connected device that carries a payload is
    forwarded to the connection mapped to the deviceId, and to no one else,
    as one [command] message with the command and the payload as given. *)
Theorem command_forwarded_verbatim c d k device cmd payload fields w :
  PyDict.get "type" fields = Some (JStr "device.send_command") →
  PyDict.get "deviceId" fields = Some d → hash_key d = Some k →
  devices w !! k = Some device →
  PyDict.get "command" fields = Some cmd →
  PyDict.get "payload" fields = Some payload →
  device ∉ closed w →
  handle_subscriber_message c (Json (JObj fields)) w =
    (Ret tt,
     with_outbox (λ o, o ++ [(device, command_message cmd payload)]) w).
Proof.
  intros Ht Hd Hk Hdev Hcmd Hp Hopen.
  unfold handle_subscriber_message, try_except.
  rewrite subscriber_message_spec. rewrite Ht, Hd, Hk, Hdev, Hcmd, Hp. simpl.
  by rewrite send_open.
Qed.

Lemma command_forwarded_verbatim_witness :
  let w := run [DeviceConnect 1; DeviceMessage 1 dev1_auth "t0" "t1";
                SubscriberConnect 7] initial in
  let fields := [("type", JStr "device.send_command");
                 ("deviceId", JStr "dev1"); ("command", JStr "eval");
                 ("payload", JObj [("code", JStr "1+1")])] in
  handle_subscriber_message 7 (Json (JObj fields)) w =
    (Ret tt,
     with_outbox
       (λ o, o ++ [(1, command_message (JStr "eval")
                         (JObj [("code", JStr "1+1")]))]) w).
Proof.
  apply (command_forwarded_verbatim 7 (JStr "dev1") (KStr "dev1"));
    vm_compute; first [reflexivity | by intros [=]].
Defined.

(** X18: a [device.send_command] frame without a [command] field, for a
    connected device, is dropped: nothing is sent and nothing changes. *)
Theorem command_without_name_dropped c d k device fields w :
  PyDict.get "type" fields = Some (JStr "device.send_command") →
  PyDict.get "deviceId" fields = Some d → hash_key d = Some k →
  devices w !! k = Some device →
  PyDict.get "command" fields = None →
  handle_subscriber_message c (Json (JObj fields)) w = (Ret tt, w).
Proof.
  intros Ht Hd Hk Hdev Hcmd. unfold handle_subscriber_message, try_except.
  rewrite subscriber_message_spec. by rewrite Ht, Hd, Hk, Hdev, Hcmd.
Qed.

Lemma command_without_name_dropped_witness :
  let w := run [DeviceConnect 1; DeviceMessage 1 dev1_auth "t0" "t1";
                SubscriberConnect 7] initial in
  let fields := [("type", JStr "device.send_command");
                 ("deviceId", JStr "dev1");
                 ("payload", JObj [("code", JStr "1+1")])] in
  handle_subscriber_message 7 (Json (JObj fields)) w = (Ret tt, w).
Proof.
  apply (command_without_name_dropped 7 (JStr "dev1") (KStr "dev1") 1);
    vm_compute; reflexivity.
Defined.

(** X19: a command for a deviceId whose mapped connection is closed is
    dropped without an error: nothing is sent, and the stale mapping is
    left in place. *)
Theorem command_to_closed_device_dropped c d k device cmd fields w :
  PyDict.get "type" fields = Some (JStr "device.send_command") →
  PyDict.get "deviceId" fields = Some d → hash_key d = Some k →
  devices w !! k = Some device →
  PyDict.get "command" fields = Some cmd →
  device ∈ closed w →
  handle_subscriber_message c (Json (JObj fields)) w = (Ret tt, w).
Proof.
  intros Ht Hd Hk Hdev Hcmd Hclosed.
  unfold handle_subscriber_message, try_except.
  rewrite subscriber_message_spec. rewrite Ht, Hd, Hk, Hdev, Hcmd. simpl.
  by rewrite send_closed.
Qed.

Lemma command_to_closed_device_dropped_witness :
  let w := run [DeviceConnect 1; DeviceMessage 1 dev1_auth "t0" "t1";
                SubscriberConnect 7; TransportClosed 1] initial in
  let fields := [("type", JStr "device.send_command");
                 ("deviceId", JStr "dev1"); ("command", JStr "reload")] in
  handle_subscriber_message 7 (Json (JObj fields)) w = (Ret tt, w).
Proof.
  apply (command_to_closed_device_dropped 7 (JStr "dev1") (KStr "dev1") 1
           (JStr "reload"));
    vm_compute; reflexivity.
Defined.

(** X20: a subscriber frame that does not parse, is not an object, has no
    [type], or has a type other than the two commands, is skipped: the
    state is exactly what it was. *)
Theorem unrecognised_subscriber_frame_skipped c message w :
  (∀ fields ty, message = Json (JObj fields) →
                PyDict.get "type" fields = Some ty →
                is_str "device.request_events" ty = false ∧
                is_str "device.send_command" ty = false) →
  step (SubscriberMessage c message) w = w.
Proof.
  intros Hm. cbn [step]. rewrite exec_handle_subscriber_message.
  destruct message as [|v]; [done|].
  assert ((∃ fields, v = JObj fields) ∨ ∀ fields, v ≠ JObj fields)
    as [[fields ->]|Hv] by (destruct v; eauto);
    [|by rewrite subscriber_message_not_dict].
  rewrite subscriber_message_spec.
  destruct (PyDict.get "type" fields) as [ty|] eqn:Hty; [|done].
  destruct (Hm fields ty eq_refl Hty) as [-> ->]. done.
Qed.

Lemma unrecognised_subscriber_frame_skipped_witness :
  let w := run [DeviceConnect 1; DeviceMessage 1 dev1_auth "t0" "t1";
                SubscriberConnect 7] initial in
  step (SubscriberMessage 7
          (Json (JObj [("type", JStr "device.reset");
                       ("deviceId", JStr "dev1")]))) w = w.
Proof.
  apply (unrecognised_subscriber_frame_skipped 7).
  intros fields ty [= <-] [= <-]. done.
Defined.

(** X21: no frame of a subscriber changes the registry: the connection
    mappings, the buffers, the DeviceInfo table, the subscriber set and the
    bindings of the device connections are what they were; at most one
    message is queued. *)
Theorem subscriber_frames_leave_registry c message w :
  let w' := step (SubscriberMessage c message) w in
  same_registry w w' ∧
  (outbox w' = outbox w ∨ ∃ dest msg, outbox w' = outbox w ++ [(dest, msg)]).
Proof.
  cbv zeta. cbn [step]. split; [apply subscriber_message_same_registry|].
  rewrite exec_handle_subscriber_message.
  assert (∀ dest msg,
    outbox (send dest msg w).2 = outbox w ∨
    ∃ dest' msg', outbox (send dest msg w).2 = outbox w ++ [(dest', msg')])
    as Hsend.
  { intros dest msg. unfold send. destruct (decide _); [by left|].
    right. by exists dest, msg. }
  destruct message as [|v]; [by left|].
  assert ((∃ fields, v = JObj fields) ∨ ∀ fields, v ≠ JObj fields)
    as [[fields ->]|Hv] by (destruct v; eauto).
  2:{ rewrite subscriber_message_not_dict by done. by left. }
  rewrite subscriber_message_spec.
  repeat (case_match; try (by left)); apply Hsend.
Qed.

(** * The HTTP accessor *)

Lemma py_split_no_slash s :
  no_slash s = true → py_split "/"%char s = [s].
Proof.
  unfold no_slash. induction s as [|ch rest IH]; [done|].
  simpl. intros [Hch Hrest]%andb_true_iff.
  apply negb_true_iff in Hch. rewrite Hch. by rewrite IH.
Qed.

Lemma device_id_of_path id :
  no_slash id = true →
  default EmptyString (last (py_split "/"%char ("/api/device/" ++ id)%string))
  = id.
Proof.
  intros Hid. simpl. by rewrite py_split_no_slash.
Qed.

(** X22: a request for [/api/device/<id>], for an id without a slash, is
    answered 200 with the DeviceInfo and the whole buffer of [<id>] when a
    DeviceInfo is on file for [<id>] (an empty list of events when nothing
    is buffered), and 404 [Device not found] when none is, whatever is
    buffered. *)
Theorem http_device_lookup id w :
  no_slash id = true →
  http_handler ("/api/device/" ++ id)%string w =
  match PyDict.get (KStr id) (device_info w) with
  | Some info =>
      Response 200
        (JObj [("info", JObj info); ("events", JArr (get_events w (KStr id)))])
  | None => Response 404 (JObj [("error", JStr "Device not found")])
  end.
Proof.
  intros Hid. unfold http_handler.
  change (String.eqb ("/api/device/" ++ id)%string "/api/devices") with false.
  change (py_startswith "/api/device/" ("/api/device/" ++ id)%string) with true.
  cbv iota zeta. by rewrite device_id_of_path.
Qed.

Lemma http_device_lookup_witness :
  let w := run [DeviceConnect 1; DeviceMessage 1 dev1_auth "t0" "t1";
                DeviceMessage 1 (Json (JObj (log_event 1))) "t2" "t2";
                DeviceDisconnect 1] initial in
  http_handler ("/api/device/" ++ "dev1")%string w =
  match PyDict.get (KStr "dev1") (device_info w) with
  | Some info =>
      Response 200
        (JObj [("info", JObj info);
               ("events", JArr (get_events w (KStr "dev1")))])
  | None => Response 404 (JObj [("error", JStr "Device not found")])
  end.
Proof.
  apply (http_device_lookup "dev1"). reflexivity.
Defined.

(** X23: once a device has completed a handshake under an id, a request
    for [/api/device/<id>] is answered 200 with its DeviceInfo and its
    current buffer in every later state, connected or not. *)
Theorem http_serves_device_ever_after c id user_agent url now1 now2 trace w :
  c ∈ dom (handlers w) → no_slash id = true →
  let w' :=
    run trace
      (step (DeviceMessage c (Json (auth_frame (JStr id) user_agent url))
               now1 now2) w) in
  ∃ info,
    PyDict.get (KStr id) (device_info w') = Some info ∧
    http_handler ("/api/device/" ++ id)%string w' =
      Response 200
        (JObj [("info", JObj info);
               ("events", JArr (get_events w' (KStr id)))]).
Proof.
  intros Hrun Hid. cbv zeta.
  destruct (handshake_wins c (JStr id) user_agent url now1 now2 w (KStr id)
              Hrun eq_refl) as (_ & _ & Hinfo).
  destruct (run_device_info_kept trace _ (KStr id) (mk_is_Some _ _ Hinfo))
    as [info Hi].
  exists info. split; [done|].
  unfold http_handler.
  change (String.eqb ("/api/device/" ++ id)%string "/api/devices") with false.
  change (py_startswith "/api/device/" ("/api/device/" ++ id)%string) with true.
  cbv iota zeta. by rewrite device_id_of_path, Hi.
Qed.

Lemma http_serves_device_ever_after_witness :
  let w' :=
    run [DeviceMessage 1 (Json (JObj (log_event 1))) "t2" "t2";
         DeviceDisconnect 1]
      (step (DeviceMessage 1
               (Json (auth_frame (JStr "dev1") (JStr "ua") (JStr "u")))
               "t0" "t1")
         (step (DeviceConnect 1) initial)) in
  ∃ info,
    PyDict.get (KStr "dev1") (device_info w') = Some info ∧
    http_handler ("/api/device/" ++ "dev1")%string w' =
      Response 200
        (JObj [("info", JObj info);
               ("events", JArr (get_events w' (KStr "dev1")))]).
Proof.
  apply (http_serves_device_ever_after 1 "dev1" (JStr "ua") (JStr "u")
           "t0" "t1"
           [DeviceMessage 1 (Json (JObj (log_event 1))) "t2" "t2";
            DeviceDisconnect 1] (step (DeviceConnect 1) initial));
    vm_compute; reflexivity.
Defined.

(** X24: the list served at [/api/devices] and the greeting of a new
    subscriber hold the same DeviceInfo entries in the same order, and the
    DeviceInfo of a device is among them from its first handshake on,
    connected or not. *)
Theorem device_lists_agree_and_keep_devices
    c id user_agent url now1 now2 trace w :
  c ∈ dom (handlers w) →
  let w' :=
    run trace
      (step (DeviceMessage c (Json (auth_frame (JStr id) user_agent url))
               now1 now2) w) in
  ∃ info infos,
    PyDict.get (KStr id) (device_info w') = Some info ∧
    http_handler "/api/devices" w' = Response 200 (JArr infos) ∧
    devices_list w' =
      JObj [("type", JStr "devices.list"); ("payload", JArr infos)] ∧
    JObj info ∈ infos.
Proof.
  intros Hrun. cbv zeta.
  destruct (handshake_wins c (JStr id) user_agent url now1 now2 w (KStr id)
              Hrun eq_refl) as (_ & _ & Hinfo).
  set (w1 := step _ w) in *.
  destruct (run_device_info_kept trace w1 (KStr id) (mk_is_Some _ _ Hinfo))
    as [info Hi].
  exists info, (JObj <$> PyDict.values (device_info (run trace w1))).
  split_and!; [done|done|done|].
  apply list_elem_of_fmap. exists info. split; [done|].
  unfold PyDict.values. apply list_elem_of_fmap. exists (KStr id, info).
  split; [done|]. by apply pydict_get_elem.
Qed.

Lemma device_lists_agree_and_keep_devices_witness :
  let w' :=
    run [DeviceDisconnect 1; DeviceConnect 2;
         DeviceMessage 2 anonymous_auth "t2" "t3"]
      (step (DeviceMessage 1
               (Json (auth_frame (JStr "dev1") (JStr "ua") (JStr "u")))
               "t0" "t1")
         (step (DeviceConnect 1) initial)) in
  ∃ info infos,
    PyDict.get (KStr "dev1") (device_info w') = Some info ∧
    http_handler "/api/devices" w' = Response 200 (JArr infos) ∧
    devices_list w' =
      JObj [("type", JStr "devices.list"); ("payload", JArr infos)] ∧
    JObj info ∈ infos.
Proof.
  apply (device_lists_agree_and_keep_devices 1 "dev1" (JStr "ua") (JStr "u")
           "t0" "t1"
           [DeviceDisconnect 1; DeviceConnect 2;
            DeviceMessage 2 anonymous_auth "t2" "t3"]
           (step (DeviceConnect 1) initial)).
  vm_compute. reflexivity.
Defined.

(** The accessor on a small state: an unknown device, a path outside the
    API, and a device that is known and has gone. *)
Lemma http_examples :
  let w := run [DeviceConnect 1; DeviceMessage 1 dev1_auth "t0" "t1";
                DeviceMessage 1 (Json (JObj (log_event 1))) "t2" "t2";
                DeviceDisconnect 1] initial in
  http_handler "/api/device/ghost" w =
    Response 404 (JObj [("error", JStr "Device not found")]) ∧
  http_handler "/api/status" w =
    Response 404 (JObj [("error", JStr "Not found")]) ∧
  http_handler "/api/device/dev1" w =
    Response 200
      (JObj [("info",
              JObj (new_info (JStr "dev1") (JStr "Mozilla/5.0")
                      (JStr "http://app/") "t0" "t2"));
             ("events", JArr [stamp (JStr "dev1") (log_event 1)])]).
Proof. vm_compute. by repeat split. Qed.
